(** * trx-push: a shallow embedding of [main.go]

    The program is sequential glue: load [config.yaml], log in once to get a
    bearer token, read the pending invoice numbers from PostgreSQL and issue
    one POST per invoice.  Everything it does is an effect on the outside
    world, so the embedding is a state monad over the two package-level
    variables ([config], [jwtToken]), an ordered trace of the observable
    effects and the set of resources currently held.  The outside world
    (file system, YAML and JSON codecs, HTTP transport, SQL driver) is a
    record of functions, [World]; every theorem quantifies over it. *)

From Stdlib Require Import ZArith String Ascii List Lia.
From stdpp Require Import base gmap strings list pretty.

Local Open Scope Z_scope.
Local Open Scope string_scope.
Local Open Scope list_scope.

(** ** Data model (main.go, lines 16-44) *)

Module API.
Record t := mk {
  LoginURL : string;
  PushURL  : string;
  Username : string;
  Password : string
}.
Definition zero : t := mk "" "" "" "".
End API.

Module Database.
Record t := mk {
  Host     : string;
  Port     : Z;
  User     : string;
  Password : string;
  DBName   : string;
  SSLMode  : string
}.
Definition zero : t := mk "" 0 "" "" "" "".
End Database.

Record Config := mkConfig {
  API      : API.t;
  Database : Database.t
}.

Record Transaction := mkTransaction { InvoiceID : string }.

Record LoginResponse := mkLoginResponse { Token : string }.

(** Go zero values of the struct types. *)
Definition zeroConfig : Config := mkConfig API.zero Database.zero.
Definition zeroLoginResponse : LoginResponse := mkLoginResponse "".

(** A Go [error] value.  [LibError] is an error handed back by a library
    call (its text is the library's), [Errorf] one built by [fmt.Errorf] in
    this program. *)
Inductive error :=
| LibError (msg : string)
| Errorf (msg : string).

Definition Error (e : error) : string :=
  match e with LibError m => m | Errorf m => m end.

Inductive result (A : Type) :=
| Ok (a : A)
| Err (e : error).
Arguments Ok {A} a.
Arguments Err {A} e.

(** [*http.Request] as far as the program sets it: method, raw URL, header
    map and optional body. *)
Record Request := mkRequest {
  Method : string;
  URL    : string;
  Header : gmap string string;
  ReqBody : option string
}.

(** [*http.Response]: the status code and what reading the body to its end
    ([io.ReadAll]) gives. *)
Record Response := mkResponse {
  StatusCode : Z;
  Body : result string
}.

Definition StatusOK : Z := 200.

(** ** Observable effects and held resources *)

Inductive Resource := RFile | RBody | RDB | RRows.

Inductive Event :=
| EvOpen (name : string)              (* os.Open *)
| EvHttp (req : Request)              (* client.Do *)
| EvSqlOpen (driver dsn : string)     (* sql.Open *)
| EvQuery (query : string)            (* db.Query *)
| EvClose (r : Resource)              (* file.Close, resp.Body.Close, rows.Close, db.Close *)
| EvLog (msg : string)                (* log.Printf / log.Fatalf, standard logger *)
| EvStdout (msg : string).            (* fmt.Printf *)

(** ** The outside world

    Library calls whose results the program cannot determine.  [http_Do]
    receives the trace so far, so the answer to a request may depend on
    everything that happened before it (the same invoice pushed twice may
    succeed once and fail once).  [yaml_Decode] and [json_Unmarshal] have
    the Go shape: they write into the value they are given and return an
    error or nil.  [url_Parse] is the URL check inside [http.NewRequest].
    A query result lists the rows [rows.Next] delivers, each as what
    [rows.Scan(&number)] gives for it; the program never asks [rows.Err]. *)
Record World := mkWorld {
  os_Open        : string -> result string;
  yaml_Decode    : string -> Config -> Config * option error;
  json_Marshal   : gmap string string -> string;
  url_Parse      : string -> option error;
  http_Do        : list Event -> Request -> result Response;
  json_Unmarshal : string -> LoginResponse -> LoginResponse * option error;
  sql_Open       : string -> string -> option error;
  db_Query       : string -> string -> result (list (result string))
}.

(** ** Program state: the package-level variables, the trace, the resources *)

Record State := mkState {
  config   : Config;
  jwtToken : string;
  trace    : list Event;
  live     : list Resource
}.

Definition init_state : State := mkState zeroConfig "" [] [].

#[global] Instance Resource_eq_dec : EqDecision Resource.
Proof. solve_decision. Defined.

(** ** A state monad for the effects *)

Definition M (A : Type) : Type := State -> A * State.

Definition ret {A} (a : A) : M A := fun s => (a, s).

Definition bind {A B} (m : M A) (k : A -> M B) : M B :=
  fun s => let (a, s') := m s in k a s'.

Declare Scope go_scope.
Delimit Scope go_scope with go.
Notation "x <- c ;; k" := (bind c (fun x => k))
  (at level 100, c at next level, right associativity) : go_scope.
Notation "c ;;; k" := (bind c (fun _ => k))
  (at level 100, right associativity) : go_scope.
Local Open Scope go_scope.

Definition emit (e : Event) : M unit :=
  fun s => (tt, mkState (config s) (jwtToken s) (trace s ++ [e]) (live s)).

Definition acquire (r : Resource) : M unit :=
  fun s => (tt, mkState (config s) (jwtToken s) (trace s) (r :: live s)).

(** Drops the most recently acquired resource of kind [r]. *)
Fixpoint drop_first (r : Resource) (l : list Resource) : list Resource :=
  match l with
  | [] => []
  | x :: l' => if decide (x = r) then l' else x :: drop_first r l'
  end.

(** [x.Close()]. *)
Definition close (r : Resource) : M unit :=
  fun s => (tt, mkState (config s) (jwtToken s) (trace s ++ [EvClose r])
                        (drop_first r (live s))).

Definition get_config : M Config := fun s => (config s, s).
Definition get_jwtToken : M string := fun s => (jwtToken s, s).
Definition get_trace : M (list Event) := fun s => (trace s, s).

Definition set_config (c : Config) : M unit :=
  fun s => (tt, mkState c (jwtToken s) (trace s) (live s)).

Definition set_jwtToken (t : string) : M unit :=
  fun s => (tt, mkState (config s) t (trace s) (live s)).

Definition log_Printf (msg : string) : M unit := emit (EvLog msg).
Definition fmt_Printf (msg : string) : M unit := emit (EvStdout msg).

(** [log.Fatalf]: one log line, then [os.Exit(1)]. *)
Definition log_Fatalf (msg : string) : M Z := emit (EvLog msg) ;;; ret 1.

(** One-character strings that cannot be written inside a literal. *)
Definition dq : string := String (ascii_of_nat 34) EmptyString.
Definition nl : string := String (ascii_of_nat 10) EmptyString.

Section Program.

Variable w : World.

(** *** loadConfig (main.go, lines 74-86) *)
Definition loadConfig : M (option error) :=
  emit (EvOpen "config.yaml") ;;;
  match os_Open w "config.yaml" with
  | Err err => ret (Some err)
  | Ok file =>
      acquire RFile ;;;
      (* decoder.Decode(&config) writes into the package variable *)
      cfg <- get_config ;;
      let (cfg', derr) := yaml_Decode w file cfg in
      set_config cfg' ;;;
      (* deferred file.Close() runs on both returns *)
      close RFile ;;;
      ret derr
  end.

(** *** Library calls with a fixed, known shape *)

(** [http.NewRequest]: fails when the URL does not parse, otherwise a
    request with the given method, URL and body and no header. *)
Definition http_NewRequest (method url : string) (body : option string)
  : result Request :=
  match url_Parse w url with
  | Some err => Err err
  | None => Ok (mkRequest method url ∅ body)
  end.

(** [req.Header.Set(k, v)]; both keys the program uses are already in
    canonical form. *)
Definition Header_Set (req : Request) (k v : string) : Request :=
  mkRequest (Method req) (URL req) (<[k := v]> (Header req)) (ReqBody req).

(** [client.Do(req)]: a response holds its body open until closed. *)
Definition client_Do (req : Request) : M (result Response) :=
  t <- get_trace ;;
  emit (EvHttp req) ;;;
  match http_Do w t req with
  | Err err => ret (Err err)
  | Ok resp => acquire RBody ;;; ret (Ok resp)
  end.

(** *** getTransactionsFromDB (main.go, lines 89-115) *)

Definition psqlInfo (cfg : Config) : string :=
  "host=" +:+ Database.Host (Database cfg) +:+
  " port=" +:+ pretty (Database.Port (Database cfg)) +:+
  " user=" +:+ Database.User (Database cfg) +:+
  " password=" +:+ Database.Password (Database cfg) +:+
  " dbname=" +:+ Database.DBName (Database cfg) +:+
  " sslmode=" +:+ Database.SSLMode (Database cfg).

Definition query : string := "SELECT number FROM invoice WHERE status = 1".

(** The [for rows.Next()] loop, lines 105-114: [rows] is what is left of
    the cursor, [transactions] the slice built so far. *)
Fixpoint scan_rows (rows : list (result string)) (transactions : list Transaction)
  : list Transaction * option error :=
  match rows with
  | [] => (transactions, None)
  | Err err :: _ => ([], Some err)
  | Ok number :: rest => scan_rows rest (transactions ++ [mkTransaction number])
  end.

Definition getTransactionsFromDB : M (list Transaction * option error) :=
  cfg <- get_config ;;
  emit (EvSqlOpen "postgres" (psqlInfo cfg)) ;;;
  match sql_Open w "postgres" (psqlInfo cfg) with
  | Some err => ret ([], Some err)
  | None =>
      acquire RDB ;;;
      res <- (emit (EvQuery query) ;;;
              match db_Query w (psqlInfo cfg) query with
              | Err err => ret ([], Some err)
              | Ok rows =>
                  acquire RRows ;;;
                  res <- ret (scan_rows rows []) ;;
                  (* deferred rows.Close() *)
                  close RRows ;;;
                  ret res
              end) ;;
      (* deferred db.Close() *)
      close RDB ;;;
      ret res
  end.

(** *** pushTransaction (main.go, lines 118-139) *)

Definition push_url (cfg : Config) (invoiceID : string) : string :=
  API.PushURL (API cfg) +:+ "?invoice_number=" +:+ invoiceID.

Definition push_status_message (invoiceID : string) (status : Z) : string :=
  "failed to push transaction with invoice_id " +:+ invoiceID +:+
  ", status: " +:+ pretty status.

Definition pushTransaction (invoiceID : string) : M (option error) :=
  cfg <- get_config ;;
  let url := push_url cfg invoiceID in
  fmt_Printf ("URL push: " +:+ url +:+ nl) ;;;
  match http_NewRequest "POST" url None with
  | Err err => ret (Some err)
  | Ok req =>
      tok <- get_jwtToken ;;
      let req := Header_Set req "Authorization" ("Bearer " +:+ tok) in
      r <- client_Do req ;;
      match r with
      | Err err => ret (Some err)
      | Ok resp =>
          let res :=
            if negb (StatusCode resp =? StatusOK)%Z
            then Some (Errorf (push_status_message invoiceID (StatusCode resp)))
            else None in
          (* deferred resp.Body.Close() *)
          close RBody ;;;
          ret res
      end
  end.

(** *** loginAndGetToken (main.go, lines 142-181) *)

Definition loginData (cfg : Config) : gmap string string :=
  <["password" := API.Password (API cfg)]>
    (<["email" := API.Username (API cfg)]> ∅).

Definition login_status_message (status : Z) : string :=
  "failed to login, status: " +:+ pretty status.

Definition loginAndGetToken : M (option error) :=
  cfg <- get_config ;;
  let jsonData := json_Marshal w (loginData cfg) in
  match http_NewRequest "POST" (API.LoginURL (API cfg)) (Some jsonData) with
  | Err err => ret (Some err)
  | Ok req =>
      let req := Header_Set req "Content-Type" "application/json" in
      r <- client_Do req ;;
      match r with
      | Err err => ret (Some err)
      | Ok resp =>
          res <- match Body resp with
                 | Err err => ret (Some err)
                 | Ok body =>
                     if negb (StatusCode resp =? StatusOK)%Z
                     then ret (Some (Errorf (login_status_message (StatusCode resp))))
                     else
                       let (loginResp, uerr) := json_Unmarshal w body zeroLoginResponse in
                       match uerr with
                       | Some err => ret (Some err)
                       | None =>
                           set_jwtToken (Token loginResp) ;;;
                           tok <- get_jwtToken ;;
                           log_Printf ("Successfully acquired JWT token: " +:+ tok) ;;;
                           ret None
                       end
                 end ;;
          (* deferred resp.Body.Close() *)
          close RBody ;;;
          ret res
      end
  end.

(** *** main (main.go, lines 46-71) *)

Definition push_failure_line (invoiceID : string) (err : error) : string :=
  "Failed to push transaction with invoice_id " +:+ invoiceID +:+ ": " +:+ Error err.

Definition push_success_line (invoiceID : string) : string :=
  "Successfully pushed transaction with invoice_id " +:+ invoiceID.

(** The [for _, txn := range transactions] loop, lines 64-70. *)
Fixpoint main_loop (transactions : list Transaction) : M unit :=
  match transactions with
  | [] => ret tt
  | txn :: rest =>
      err <- pushTransaction (InvoiceID txn) ;;
      match err with
      | Some err => log_Printf (push_failure_line (InvoiceID txn) err)
      | None => log_Printf (push_success_line (InvoiceID txn))
      end ;;;
      main_loop rest
  end.

(** [main] returns the exit status of the process: 1 from [log.Fatalf],
    0 when the function body runs to its end. *)
Definition main : M Z :=
  err <- loadConfig ;;
  match err with
  | Some err => log_Fatalf ("Failed to load config: " +:+ Error err)
  | None =>
      err <- loginAndGetToken ;;
      match err with
      | Some err => log_Fatalf ("Failed to login and get JWT token: " +:+ Error err)
      | None =>
          r <- getTransactionsFromDB ;;
          match snd r with
          | Some err =>
              log_Fatalf ("Failed to get transactions from the database: " +:+ Error err)
          | None => main_loop (fst r) ;;; ret 0
          end
      end
  end.

End Program.

(** ** Vocabulary of the statements

    The state after a call differs from the one before only in the trace,
    which grows at its end, and (for [loadConfig] and [loginAndGetToken]) in
    the variable the call writes. *)

(** The state [s] with [d] appended to its trace. *)
Definition after (s : State) (d : list Event) : State :=
  mkState (config s) (jwtToken s) (trace s ++ d) (live s).

Definition with_config (c : Config) (s : State) : State :=
  mkState c (jwtToken s) (trace s) (live s).

Definition with_jwtToken (t : string) (s : State) : State :=
  mkState (config s) t (trace s) (live s).

(** The events a call added to the trace. *)
Definition new_events (s s' : State) : list Event :=
  drop (length (trace s)) (trace s').

(** The request [pushTransaction] builds for an invoice. *)
Definition push_request (cfg : Config) (tok invoiceID : string) : Request :=
  mkRequest "POST" (push_url cfg invoiceID)
            (<["Authorization" := "Bearer " +:+ tok]> ∅) None.

Definition push_url_line (cfg : Config) (invoiceID : string) : Event :=
  EvStdout ("URL push: " +:+ push_url cfg invoiceID +:+ nl).

(** The request [loginAndGetToken] builds. *)
Definition login_request (w : World) (cfg : Config) : Request :=
  mkRequest "POST" (API.LoginURL (API cfg))
            (<["Content-Type" := "application/json"]> ∅)
            (Some (json_Marshal w (loginData cfg))).

(** What [pushTransaction] returns for a response. *)
Definition push_verdict (invoiceID : string) (resp : Response) : option error :=
  if (StatusCode resp =? StatusOK)%Z then None
  else Some (Errorf (push_status_message invoiceID (StatusCode resp))).

(** ** The dispatch loop, one block of events per record *)

Definition is_stdout (e : Event) : bool :=
  match e with EvStdout _ => true | _ => false end.

Definition is_log (e : Event) : bool :=
  match e with EvLog _ => true | _ => false end.

(** A push call shows as the URL line [pushTransaction] prints when it is
    entered, and as a request carrying an Authorization header. *)
Definition is_push_event (e : Event) : bool :=
  match e with
  | EvStdout _ => true
  | EvHttp req => bool_decide (is_Some (Header req !! "Authorization"))
  | _ => false
  end.

(** The events of one loop iteration for [txn], under settings [cfg] and
    token [tok]: the push call, then exactly one log line. *)
Inductive push_block (cfg : Config) (tok : string) (txn : Transaction)
  : list Event -> Prop :=
| block_no_request err :
    push_block cfg tok txn
      [push_url_line cfg (InvoiceID txn);
       EvLog (push_failure_line (InvoiceID txn) err)]
| block_transport err :
    push_block cfg tok txn
      [push_url_line cfg (InvoiceID txn);
       EvHttp (push_request cfg tok (InvoiceID txn));
       EvLog (push_failure_line (InvoiceID txn) err)]
| block_status status :
    status <> StatusOK ->
    push_block cfg tok txn
      [push_url_line cfg (InvoiceID txn);
       EvHttp (push_request cfg tok (InvoiceID txn));
       EvClose RBody;
       EvLog (push_failure_line (InvoiceID txn)
                (Errorf (push_status_message (InvoiceID txn) status)))]
| block_pushed :
    push_block cfg tok txn
      [push_url_line cfg (InvoiceID txn);
       EvHttp (push_request cfg tok (InvoiceID txn));
       EvClose RBody;
       EvLog (push_success_line (InvoiceID txn))].

Inductive loop_blocks (cfg : Config) (tok : string)
  : list Transaction -> list Event -> Prop :=
| blocks_nil : loop_blocks cfg tok [] []
| blocks_cons txn rest d dr :
    push_block cfg tok txn d ->
    loop_blocks cfg tok rest dr ->
    loop_blocks cfg tok (txn :: rest) (d ++ dr).

(** The log line of a record names its invoice, as a success or a failure. *)
Definition record_line (txn : Transaction) (e : Event) : Prop :=
  e = EvLog (push_success_line (InvoiceID txn)) \/
  exists err, e = EvLog (push_failure_line (InvoiceID txn) err).

(** ** Stages 1-3 make no push call *)

Definition quiet (d : list Event) : Prop :=
  Forall (fun e => is_push_event e = false) d.

(** ** Two claims as the specification words them *)

(** C5 as the specification words it: a request is always issued, the call
    succeeds exactly on a 200 response, and every failure message names the
    invoice and the status. *)
Definition C5_as_stated : Prop :=
  forall (w : World) (invoiceID : string) (s : State),
    let req := push_request (config s) (jwtToken s) invoiceID in
    let r := pushTransaction w invoiceID s in
    In (EvHttp req) (new_events s (snd r)) /\
    (fst r = None <->
     exists resp,
       http_Do w (trace s ++ [push_url_line (config s) invoiceID]) req = Ok resp /\
       StatusCode resp = StatusOK) /\
    (forall err, fst r = Some err ->
       exists status, Error err = push_status_message invoiceID status).

(** C3 as the specification words it: a well-formed file fills the settings
    with what the decoder read; a missing or malformed file gives an error
    and leaves the settings as they were before the call. *)
Definition C3_as_stated : Prop :=
  forall (w : World) (s : State),
    (forall file cfg',
       os_Open w "config.yaml" = Ok file ->
       yaml_Decode w file (config s) = (cfg', None) ->
       fst (loadConfig w s) = None /\ config (snd (loadConfig w s)) = cfg') /\
    ((exists err, os_Open w "config.yaml" = Err err) \/
     (exists file cfg' err,
        os_Open w "config.yaml" = Ok file /\
        yaml_Decode w file (config s) = (cfg', Some err)) ->
     (exists err, fst (loadConfig w s) = Some err) /\
     config (snd (loadConfig w s)) = config s).

(** ** A concrete world, for running the program

    Opening [config.yaml] gives [file], decoded by [yaml]; the login endpoint answers [login];
    every other URL is answered by [push]; the query gives [rows].  The URL
    check refuses ASCII control characters, as [net/url] does. *)

Definition sample_config : Config :=
  mkConfig
    (API.mk "https://api.example.test/login" "https://api.example.test/push"
            "svc@example.test" "s3cret")
    (Database.mk "localhost" 5432 "trx" "pgpass" "billing" "disable").

Definition sample_yaml : string :=
  "api:" +:+ nl +:+
  "  login_url: https://api.example.test/login" +:+ nl +:+
  "  push_url: https://api.example.test/push" +:+ nl +:+
  "  username: svc@example.test" +:+ nl +:+
  "  password: s3cret" +:+ nl +:+
  "database:" +:+ nl +:+
  "  host: localhost" +:+ nl +:+
  "  port: 5432" +:+ nl +:+
  "  user: trx" +:+ nl +:+
  "  password: pgpass" +:+ nl +:+
  "  dbname: billing" +:+ nl +:+
  "  sslmode: disable" +:+ nl.

Definition token_body (tok : string) : string :=
  "{" +:+ dq +:+ "access_token" +:+ dq +:+ ":" +:+ dq +:+ tok +:+ dq +:+ "}".

Definition sample_marshal (m : gmap string string) : string :=
  "{" +:+ dq +:+ "email" +:+ dq +:+ ":" +:+ dq +:+ default "" (m !! "email") +:+ dq +:+
  "," +:+ dq +:+ "password" +:+ dq +:+ ":" +:+ dq +:+ default "" (m !! "password") +:+ dq +:+
  "}".

Definition sample_unmarshal (body : string) (v : LoginResponse)
  : LoginResponse * option error :=
  if String.eqb body (token_body "abc123") then (mkLoginResponse "abc123", None)
  else if String.eqb body (token_body "") then (mkLoginResponse "", None)
  else if String.eqb body "{}" then (v, None)
  else (v, Some (LibError "invalid character looking for beginning of value")).

Definition is_ctl (c : ascii) : bool :=
  (nat_of_ascii c <? 32)%nat || (nat_of_ascii c =? 127)%nat.

Definition sample_url_Parse (url : string) : option error :=
  if existsb is_ctl (list_ascii_of_string url)
  then Some (LibError "net/url: invalid control character in URL")
  else None.

Definition sample_world
  (file : result string)
  (yaml : string -> Config -> Config * option error)
  (login : result Response)
  (push : string -> result Response)
  (rows : result (list (result string))) : World :=
  mkWorld
    (fun name => if String.eqb name "config.yaml" then file
                 else Err (LibError "open: no such file or directory"))
    yaml
    sample_marshal
    sample_url_Parse
    (fun _ req =>
       if String.eqb (URL req) (API.LoginURL (API sample_config)) then login
       else push (URL req))
    sample_unmarshal
    (fun _ _ => None)
    (fun _ _ => rows).

Definition sample_yaml_Decode (data : string) (cfg : Config)
  : Config * option error :=
  if String.eqb data sample_yaml then (sample_config, None)
  else (cfg, Some (LibError "yaml: did not find expected key")).

(** INV-1 is accepted, every other invoice answered 500. *)
Definition sample_push (url : string) : result Response :=
  if String.eqb url (push_url sample_config "INV-1")
  then Ok (mkResponse 200 (Ok ""))
  else Ok (mkResponse 500 (Ok "")).

Definition login_ok : result Response :=
  Ok (mkResponse 200 (Ok (token_body "abc123"))).

Definition world_two_invoices : World :=
  sample_world (Ok sample_yaml) sample_yaml_Decode login_ok sample_push
               (Ok [Ok "INV-1"; Ok "INV-2"]).

Definition world_no_invoices : World :=
  sample_world (Ok sample_yaml) sample_yaml_Decode login_ok sample_push (Ok []).

Definition world_login_401 : World :=
  sample_world (Ok sample_yaml) sample_yaml_Decode
    (Ok (mkResponse 401 (Ok "Unauthorized"))) sample_push (Ok []).

Definition world_login_empty_object : World :=
  sample_world (Ok sample_yaml) sample_yaml_Decode
    (Ok (mkResponse 200 (Ok "{}"))) sample_push (Ok [Ok "INV-1"]).

(** The transport refuses the connection: [client.Do] returns its own error. *)
Definition refused_message : string :=
  "Post " +:+ dq +:+ push_url sample_config "INV-1" +:+ dq +:+
  ": dial tcp 203.0.113.7:443: connect: connection refused".

Definition world_push_refused : World :=
  sample_world (Ok sample_yaml) sample_yaml_Decode login_ok
    (fun _ => Err (LibError refused_message)) (Ok [Ok "INV-1"]).

(** A file whose port is not a number.  The YAML decoder fills the fields it
    can convert and reports the others in one error at the end, so the host
    is written although the call fails. *)
Definition bad_port_yaml : string :=
  "database:" +:+ nl +:+
  "  host: db1" +:+ nl +:+
  "  port: abc" +:+ nl.

Definition bad_port_error : error :=
  LibError ("yaml: unmarshal errors:" +:+ nl +:+
            "  line 3: cannot unmarshal !!str `abc` into int").

Definition bad_port_yaml_Decode (data : string) (cfg : Config)
  : Config * option error :=
  if String.eqb data bad_port_yaml then
    (mkConfig (API cfg)
       (Database.mk "db1"
          (Database.Port (Database cfg)) (Database.User (Database cfg))
          (Database.Password (Database cfg)) (Database.DBName (Database cfg))
          (Database.SSLMode (Database cfg))),
     Some bad_port_error)
  else sample_yaml_Decode data cfg.

Definition world_bad_port : World :=
  sample_world (Ok bad_port_yaml) bad_port_yaml_Decode login_ok sample_push (Ok []).

(** ** Event classes and further worlds *)

Definition is_http (e : Event) : bool :=
  match e with EvHttp _ => true | _ => false end.

Definition is_sql (e : Event) : bool :=
  match e with EvSqlOpen _ _ | EvQuery _ => true | _ => false end.

Definition is_file (e : Event) : bool :=
  match e with EvOpen _ | EvClose RFile => true | _ => false end.

(** Whether [http.NewRequest] accepts the push URL of a record. *)
Definition url_parses (w : World) (cfg : Config) (txn : Transaction) : bool :=
  match url_Parse w (push_url cfg (InvoiceID txn)) with
  | None => true
  | Some _ => false
  end.

(** The three fatal lines of [main]. *)
Definition fatal_line (e : Event) : Prop :=
  exists err,
    e = EvLog ("Failed to load config: " +:+ Error err) \/
    e = EvLog ("Failed to login and get JWT token: " +:+ Error err) \/
    e = EvLog ("Failed to get transactions from the database: " +:+ Error err).

Definition world_missing_file : World :=
  sample_world (Err (LibError "open config.yaml: no such file or directory"))
    sample_yaml_Decode login_ok sample_push (Ok []).

(** The login endpoint answers 200 with a body that is not JSON. *)
Definition world_login_html : World :=
  sample_world (Ok sample_yaml) sample_yaml_Decode
    (Ok (mkResponse 200 (Ok "<html>maintenance</html>"))) sample_push (Ok []).

(** The login endpoint answers 401 and the connection drops while the body
    is read. *)
Definition world_login_body_cut : World :=
  sample_world (Ok sample_yaml) sample_yaml_Decode
    (Ok (mkResponse 401 (Err (LibError "unexpected EOF")))) sample_push (Ok []).

(** The second of three rows holds NULL, which does not scan into a string. *)
Definition null_scan_error : error :=
  LibError "sql: Scan error on column index 0: converting NULL to string is unsupported".

Definition world_null_row : World :=
  sample_world (Ok sample_yaml) sample_yaml_Decode login_ok sample_push
    (Ok [Ok "INV-1"; Err null_scan_error; Ok "INV-3"]).

Definition world_query_fails : World :=
  sample_world (Ok sample_yaml) sample_yaml_Decode login_ok sample_push
    (Err (LibError "pq: relation invoice does not exist")).

(** The same invoice twice, then one whose number holds a line feed. *)
Definition world_repeated_invoice : World :=
  sample_world (Ok sample_yaml) sample_yaml_Decode login_ok sample_push
    (Ok [Ok "INV-1"; Ok "INV-1"; Ok ("INV" +:+ nl +:+ "9")]).

(** ** The dispatch loop against the world's answers

    One loop iteration for [txn] that starts with trace [t], under settings
    [cfg] and token [tok]: which events it adds is decided by what
    [http.NewRequest] says of the record's URL and what the transport answers
    to the record's request at that point of the run. *)

Inductive push_block_at (w : World) (cfg : Config) (tok : string)
  (t : list Event) (txn : Transaction) : list Event -> Prop :=
| at_no_request err :
    url_Parse w (push_url cfg (InvoiceID txn)) = Some err ->
    push_block_at w cfg tok t txn
      [push_url_line cfg (InvoiceID txn);
       EvLog (push_failure_line (InvoiceID txn) err)]
| at_transport err :
    url_Parse w (push_url cfg (InvoiceID txn)) = None ->
    http_Do w (t ++ [push_url_line cfg (InvoiceID txn)])
      (push_request cfg tok (InvoiceID txn)) = Err err ->
    push_block_at w cfg tok t txn
      [push_url_line cfg (InvoiceID txn);
       EvHttp (push_request cfg tok (InvoiceID txn));
       EvLog (push_failure_line (InvoiceID txn) err)]
| at_status resp :
    url_Parse w (push_url cfg (InvoiceID txn)) = None ->
    http_Do w (t ++ [push_url_line cfg (InvoiceID txn)])
      (push_request cfg tok (InvoiceID txn)) = Ok resp ->
    StatusCode resp <> StatusOK ->
    push_block_at w cfg tok t txn
      [push_url_line cfg (InvoiceID txn);
       EvHttp (push_request cfg tok (InvoiceID txn));
       EvClose RBody;
       EvLog (push_failure_line (InvoiceID txn)
                (Errorf (push_status_message (InvoiceID txn) (StatusCode resp))))]
| at_pushed resp :
    url_Parse w (push_url cfg (InvoiceID txn)) = None ->
    http_Do w (t ++ [push_url_line cfg (InvoiceID txn)])
      (push_request cfg tok (InvoiceID txn)) = Ok resp ->
    StatusCode resp = StatusOK ->
    push_block_at w cfg tok t txn
      [push_url_line cfg (InvoiceID txn);
       EvHttp (push_request cfg tok (InvoiceID txn));
       EvClose RBody;
       EvLog (push_success_line (InvoiceID txn))].

(** The whole loop from trace [t]: the block of the first record, then the
    loop over the other records from the trace that block leaves. *)
Inductive loop_run (w : World) (cfg : Config) (tok : string)
  : list Event -> list Transaction -> list Event -> Prop :=
| run_nil t : loop_run w cfg tok t [] []
| run_cons t txn rest d dr :
    push_block_at w cfg tok t txn d ->
    loop_run w cfg tok (t ++ d) rest dr ->
    loop_run w cfg tok t (txn :: rest) (d ++ dr).

(** ** C9 as the specification words it *)

(** Some JSON texts without an access_token member: the empty object, the
    empty array and null.  Each is a valid JSON text, so a statement about
    every valid JSON body lacking the member speaks of these. *)
Inductive json_lacking_access_token : string -> Prop :=
| lacking_empty_object : json_lacking_access_token "{}"
| lacking_empty_array : json_lacking_access_token "[]"
| lacking_null : json_lacking_access_token "null".

(** C9 as worded: any 200 login answer whose body is valid JSON without an
    access_token member makes the login succeed with the empty token. *)
Definition C9_as_stated : Prop :=
  forall (w : World) (s : State) (resp : Response) (body : string),
    url_Parse w (API.LoginURL (API (config s))) = None ->
    http_Do w (trace s) (login_request w (config s)) = Ok resp ->
    StatusCode resp = StatusOK ->
    Body resp = Ok body ->
    json_lacking_access_token body ->
    fst (loginAndGetToken w s) = None /\
    jwtToken (snd (loginAndGetToken w s)) = "".

(** [json.Unmarshal] into the LoginResponse struct: a JSON array at top level
    is a type error and leaves the value untouched. *)
Definition array_body_error : error :=
  LibError "json: cannot unmarshal array into Go value of type main.LoginResponse".

Definition unmarshal_rejecting_array (body : string) (v : LoginResponse)
  : LoginResponse * option error :=
  if String.eqb body "[]" then (v, Some array_body_error)
  else sample_unmarshal body v.

(** The login endpoint answers 200 with the body []. *)
Definition world_login_array : World :=
  mkWorld
    (os_Open world_two_invoices) (yaml_Decode world_two_invoices)
    (json_Marshal world_two_invoices) (url_Parse world_two_invoices)
    (fun _ req =>
       if String.eqb (URL req) (API.LoginURL (API sample_config))
       then Ok (mkResponse 200 (Ok "[]"))
       else sample_push (URL req))
    unmarshal_rejecting_array
    (sql_Open world_two_invoices) (db_Query world_two_invoices).

(** The state in which the dispatch loop of [main] starts. *)
Definition fetched_state (w : World) (s0 : State) : State :=
  snd (getTransactionsFromDB w
         (snd (loginAndGetToken w (snd (loadConfig w s0))))).

(** Four invoices: the first answered 500, the second refused by the
    transport, the third with a line feed in its number, the last accepted. *)
Definition mixed_push (url : string) : result Response :=
  if String.eqb url (push_url sample_config "INV-7")
  then Err (LibError "dial tcp 203.0.113.7:443: connect: connection refused")
  else sample_push url.

Definition mixed_invoices : list string :=
  ["INV-2"; "INV-7"; "INV" +:+ nl +:+ "9"; "INV-1"].

Definition world_mixed_outcomes : World :=
  sample_world (Ok sample_yaml) sample_yaml_Decode login_ok mixed_push
    (Ok (map Ok mixed_invoices)).

(** Proves a property of every event of an explicit list. *)
Ltac each_event :=
  repeat (apply List.Forall_cons; [simpl; auto 6|]); apply List.Forall_nil.

(** ** Normal forms of the operations

    Each operation is a finite case split on what the world answers; the
    lemmas below give the returned value and the final state per case. *)

Lemma after_nil s : after s [] = s.
Proof. destruct s; unfold after; simpl. by rewrite app_nil_r. Qed.

Lemma after_after s d1 d2 : after (after s d1) d2 = after s (d1 ++ d2).
Proof. unfold after; simpl. by rewrite app_assoc. Qed.

Lemma new_events_after s d : new_events s (after s d) = d.
Proof. unfold new_events, after; simpl. apply drop_app_length. Qed.

Lemma pushTransaction_cases w invoiceID s :
  pushTransaction w invoiceID s =
  let line := push_url_line (config s) invoiceID in
  let req := push_request (config s) (jwtToken s) invoiceID in
  match url_Parse w (push_url (config s) invoiceID) with
  | Some err => (Some err, after s [line])
  | None =>
      match http_Do w (trace s ++ [line]) req with
      | Err err => (Some err, after s [line; EvHttp req])
      | Ok resp => (push_verdict invoiceID resp,
                    after s [line; EvHttp req; EvClose RBody])
      end
  end.
Proof.
  unfold pushTransaction, http_NewRequest, client_Do, bind, ret, fmt_Printf,
    emit, get_config, get_jwtToken, get_trace, acquire, close, after,
    push_verdict, push_url_line, push_request, Header_Set; simpl.
  destruct (url_Parse w _); simpl; [done|].
  destruct (http_Do w _ _) as [resp|err]; simpl.
  - rewrite <- !app_assoc; simpl.
    by destruct (StatusCode resp =? StatusOK)%Z.
  - by rewrite <- !app_assoc.
Qed.

Lemma loadConfig_cases w s :
  loadConfig w s =
  match os_Open w "config.yaml" with
  | Err err => (Some err, after s [EvOpen "config.yaml"])
  | Ok file =>
      let (cfg', derr) := yaml_Decode w file (config s) in
      (derr, after (with_config cfg' s) [EvOpen "config.yaml"; EvClose RFile])
  end.
Proof.
  unfold loadConfig, bind, ret, emit, get_config, set_config, acquire, close,
    after, with_config; simpl.
  destruct (os_Open w _); simpl; [|done].
  destruct (yaml_Decode w _ _); simpl.
  by rewrite <- !app_assoc.
Qed.

Lemma loginAndGetToken_cases w s :
  loginAndGetToken w s =
  let req := login_request w (config s) in
  match url_Parse w (API.LoginURL (API (config s))) with
  | Some err => (Some err, s)
  | None =>
      match http_Do w (trace s) req with
      | Err err => (Some err, after s [EvHttp req])
      | Ok resp =>
          match Body resp with
          | Err err => (Some err, after s [EvHttp req; EvClose RBody])
          | Ok body =>
              if (StatusCode resp =? StatusOK)%Z then
                let (loginResp, uerr) := json_Unmarshal w body zeroLoginResponse in
                match uerr with
                | Some err => (Some err, after s [EvHttp req; EvClose RBody])
                | None =>
                    (None,
                     after (with_jwtToken (Token loginResp) s)
                       [EvHttp req;
                        EvLog ("Successfully acquired JWT token: " +:+ Token loginResp);
                        EvClose RBody])
                end
              else (Some (Errorf (login_status_message (StatusCode resp))),
                    after s [EvHttp req; EvClose RBody])
          end
      end
  end.
Proof.
  unfold loginAndGetToken, http_NewRequest, client_Do, bind, ret, log_Printf,
    emit, get_config, get_jwtToken, set_jwtToken, get_trace, acquire, close,
    after, with_jwtToken, login_request, Header_Set; simpl.
  destruct (url_Parse w _); simpl; [done|].
  destruct (http_Do w _ _) as [resp|err]; simpl; [|done].
  destruct (Body resp) as [body|err]; simpl.
  - destruct (StatusCode resp =? StatusOK)%Z; simpl.
    + destruct (json_Unmarshal w body _) as [lr [err|]]; simpl;
        by rewrite <- ?app_assoc.
    + by rewrite <- !app_assoc.
  - by rewrite <- !app_assoc.
Qed.

Lemma getTransactionsFromDB_cases w s :
  getTransactionsFromDB w s =
  let dsn := psqlInfo (config s) in
  match sql_Open w "postgres" dsn with
  | Some err => (([], Some err), after s [EvSqlOpen "postgres" dsn])
  | None =>
      match db_Query w dsn query with
      | Err err =>
          (([], Some err),
           after s [EvSqlOpen "postgres" dsn; EvQuery query; EvClose RDB])
      | Ok rows =>
          (scan_rows rows [],
           after s [EvSqlOpen "postgres" dsn; EvQuery query;
                    EvClose RRows; EvClose RDB])
      end
  end.
Proof.
  unfold getTransactionsFromDB, bind, ret, emit, get_config, acquire, close,
    after; simpl.
  destruct (sql_Open w _ _); simpl; [done|].
  destruct (db_Query w _ _) as [rows|err]; simpl.
  - destruct (scan_rows rows []). simpl. by rewrite <- !app_assoc.
  - by rewrite <- !app_assoc.
Qed.

Lemma main_loop_step w txn rest s :
  main_loop w (txn :: rest) s =
  let (err, s1) := pushTransaction w (InvoiceID txn) s in
  main_loop w rest
    (after s1 [EvLog (match err with
                      | Some err => push_failure_line (InvoiceID txn) err
                      | None => push_success_line (InvoiceID txn)
                      end)]).
Proof.
  simpl. unfold bind.
  destruct (pushTransaction w (InvoiceID txn) s) as [[err|] s1]; reflexivity.
Qed.

Lemma main_loop_blocks w txns :
  forall s, exists d,
    main_loop w txns s = (tt, after s d) /\
    loop_blocks (config s) (jwtToken s) txns d.
Proof.
  induction txns as [|txn rest IH]; intros s.
  - exists []. split; [by rewrite after_nil | constructor].
  - rewrite main_loop_step, pushTransaction_cases. cbv zeta.
    destruct (url_Parse w _) as [err|].
    { rewrite after_after.
      destruct (IH (after s ([push_url_line (config s) (InvoiceID txn)] ++
                             [EvLog (push_failure_line (InvoiceID txn) err)])))
        as (dr & -> & Hdr).
      eexists. split; [by rewrite after_after|].
      by apply blocks_cons; [apply block_no_request|]. }
    destruct (http_Do w _ _) as [resp|err]; rewrite after_after.
    + unfold push_verdict.
      destruct (StatusCode resp =? StatusOK)%Z eqn:Hst.
      * edestruct IH as (dr & -> & Hdr).
        eexists. split; [by rewrite after_after|].
        by apply blocks_cons; [apply block_pushed|].
      * edestruct IH as (dr & -> & Hdr).
        eexists. split; [by rewrite after_after|].
        apply blocks_cons; [|done].
        apply (block_status _ _ _ (StatusCode resp)).
        by apply Z.eqb_neq.
    + edestruct IH as (dr & -> & Hdr).
      eexists. split; [by rewrite after_after|].
      by apply blocks_cons; [apply block_transport|].
Qed.

Lemma loop_blocks_stdout cfg tok txns d :
  loop_blocks cfg tok txns d ->
  List.filter is_stdout d = map (fun txn => push_url_line cfg (InvoiceID txn)) txns.
Proof.
  induction 1 as [|txn rest d dr Hb _ IH]; [done|].
  rewrite List.filter_app, IH. by destruct Hb.
Qed.

Lemma loop_blocks_log cfg tok txns d :
  loop_blocks cfg tok txns d ->
  Forall2 record_line txns (List.filter is_log d).
Proof.
  induction 1 as [|txn rest d dr Hb _ IH]; [constructor|].
  rewrite List.filter_app.
  destruct Hb; simpl; constructor; unfold record_line; eauto.
Qed.

Lemma loop_blocks_requests cfg tok txns d :
  loop_blocks cfg tok txns d ->
  forall req, In (EvHttp req) d ->
    exists txn, In txn txns /\ req = push_request cfg tok (InvoiceID txn).
Proof.
  induction 1 as [|txn rest d dr Hb _ IH]; intros req Hin; [done|].
  apply in_app_or in Hin as [Hin|Hin].
  - exists txn. split; [by left|].
    destruct Hb; unfold push_url_line in Hin; simpl in Hin;
      intuition congruence.
  - destruct (IH _ Hin) as (t & ? & ?). exists t. split; [by right|done].
Qed.

Lemma push_request_authorization cfg tok invoiceID :
  Header (push_request cfg tok invoiceID) !! "Authorization"
  = Some ("Bearer " +:+ tok).
Proof. unfold push_request; simpl. apply lookup_insert_eq. Qed.

Lemma main_cases w s0 :
  main w s0 =
  let (e1, s1) := loadConfig w s0 in
  match e1 with
  | Some err => (1, after s1 [EvLog ("Failed to load config: " +:+ Error err)])
  | None =>
      let (e2, s2) := loginAndGetToken w s1 in
      match e2 with
      | Some err =>
          (1, after s2 [EvLog ("Failed to login and get JWT token: " +:+ Error err)])
      | None =>
          let (r, s3) := getTransactionsFromDB w s2 in
          match snd r with
          | Some err =>
              (1, after s3 [EvLog ("Failed to get transactions from the database: "
                                   +:+ Error err)])
          | None => (0, snd (main_loop w (fst r) s3))
          end
      end
  end.
Proof.
  unfold main, bind, log_Fatalf, emit, ret, bind, after.
  destruct (loadConfig w s0) as [[err|] s1]; [done|].
  destruct (loginAndGetToken w s1) as [[err|] s2]; [done|].
  destruct (getTransactionsFromDB w s2) as [[txns [err|]] s3]; simpl; [done|].
  by destruct (main_loop w txns s3).
Qed.

Example main_two_invoices :
  fst (main world_two_invoices init_state) = 0 /\
  List.filter is_log (trace (snd (main world_two_invoices init_state))) =
    [EvLog "Successfully acquired JWT token: abc123";
     EvLog "Successfully pushed transaction with invoice_id INV-1";
     EvLog ("Failed to push transaction with invoice_id INV-2: " +:+
            "failed to push transaction with invoice_id INV-2, status: 500")].
Proof. vm_compute. done. Qed.

Lemma login_request_quiet w cfg : is_push_event (EvHttp (login_request w cfg)) = false.
Proof.
  simpl. apply bool_decide_eq_false. intros [v Hv].
  rewrite lookup_insert_ne, lookup_empty in Hv; [done|]. discriminate.
Qed.

Lemma loadConfig_quiet w s :
  exists d : list Event, trace (snd (loadConfig w s)) = trace s ++ d /\ quiet d.
Proof.
  rewrite loadConfig_cases.
  destruct (os_Open w _) as [file|err]; simpl.
  - destruct (yaml_Decode w file _) as [cfg' derr]; simpl.
    eexists. split; [done|]. by repeat constructor.
  - eexists. split; [done|]. by repeat constructor.
Qed.

Lemma loginAndGetToken_quiet w s :
  exists d : list Event,
    trace (snd (loginAndGetToken w s)) = trace s ++ d /\ quiet d /\
    (fst (loginAndGetToken w s) = None ->
     In (EvLog ("Successfully acquired JWT token: "
                +:+ jwtToken (snd (loginAndGetToken w s)))) d).
Proof.
  rewrite loginAndGetToken_cases. cbv zeta.
  pose proof (login_request_quiet w (config s)) as Hq.
  destruct (url_Parse w _) as [err|]; simpl.
  { exists []. rewrite app_nil_r. repeat split; [constructor|done]. }
  destruct (http_Do w _ _) as [resp|err]; simpl.
  2:{ eexists. split; [done|]. split; [by repeat constructor|done]. }
  destruct (Body resp) as [body|err]; simpl.
  2:{ eexists. split; [done|]. split; [by repeat constructor|done]. }
  destruct (StatusCode resp =? StatusOK)%Z; simpl.
  2:{ eexists. split; [done|]. split; [by repeat constructor|done]. }
  destruct (json_Unmarshal w body _) as [lr [err|]]; simpl.
  { eexists. split; [done|]. split; [by repeat constructor|done]. }
  eexists. split; [done|]. split; [by repeat constructor|].
  intros _. right. by left.
Qed.

Lemma getTransactionsFromDB_quiet w s :
  exists d, snd (getTransactionsFromDB w s) = after s d /\ quiet d.
Proof.
  rewrite getTransactionsFromDB_cases. cbv zeta.
  destruct (sql_Open w _ _) as [err|]; simpl.
  { eexists. split; [done|]. by repeat constructor. }
  destruct (db_Query w _ _) as [rows|err]; simpl;
    (eexists; split; [done|]; by repeat constructor).
Qed.

Lemma scan_rows_all_ok numbers :
  forall transactions,
    scan_rows (map Ok numbers) transactions
    = (transactions ++ map mkTransaction numbers, None).
Proof.
  induction numbers as [|n rest IH]; intros acc; simpl.
  - by rewrite app_nil_r.
  - by rewrite IH, <- app_assoc.
Qed.

Lemma append_inj_r (p a b : string) : p +:+ a = p +:+ b -> a = b.
Proof. induction p as [|c p IH]; simpl; [done|]. intros [= H]. auto. Qed.

Example main_mixed_outcomes :
  fst (main world_mixed_outcomes init_state) = 0 /\
  List.filter is_log
    (new_events (fetched_state world_mixed_outcomes init_state)
       (snd (main world_mixed_outcomes init_state)))
  = [EvLog ("Failed to push transaction with invoice_id INV-2: " +:+
            "failed to push transaction with invoice_id INV-2, status: 500");
     EvLog ("Failed to push transaction with invoice_id INV-7: " +:+
            "dial tcp 203.0.113.7:443: connect: connection refused");
     EvLog ("Failed to push transaction with invoice_id INV" +:+ nl +:+ "9: " +:+
            "net/url: invalid control character in URL");
     EvLog "Successfully pushed transaction with invoice_id INV-1"] /\
  List.filter is_http
    (new_events (fetched_state world_mixed_outcomes init_state)
       (snd (main world_mixed_outcomes init_state)))
  = [EvHttp (push_request sample_config "abc123" "INV-2");
     EvHttp (push_request sample_config "abc123" "INV-7");
     EvHttp (push_request sample_config "abc123" "INV-1")].
Proof. vm_compute. done. Qed.

(** ** The loop follows the world's answers *)

Lemma main_loop_run w txns :
  forall s, exists d : list Event,
    main_loop w txns s = (tt, after s d) /\
    loop_run w (config s) (jwtToken s) (trace s) txns d.
Proof.
  induction txns as [|txn rest IH]; intros s.
  - exists []. split; [by rewrite after_nil | constructor].
  - rewrite main_loop_step, pushTransaction_cases. cbv zeta.
    destruct (url_Parse w _) as [err|] eqn:Hurl.
    { rewrite after_after. edestruct IH as (dr & -> & Hdr).
      eexists. split; [by rewrite after_after|].
      apply run_cons; [by apply at_no_request|exact Hdr]. }
    destruct (http_Do w _ _) as [resp|err] eqn:Hdo; rewrite after_after.
    + unfold push_verdict.
      destruct (StatusCode resp =? StatusOK)%Z eqn:Hst.
      * edestruct IH as (dr & -> & Hdr).
        eexists. split; [by rewrite after_after|].
        apply run_cons; [|exact Hdr].
        apply (at_pushed _ _ _ _ _ resp); [done|done|by apply Z.eqb_eq].
      * edestruct IH as (dr & -> & Hdr).
        eexists. split; [by rewrite after_after|].
        apply run_cons; [|exact Hdr].
        apply (at_status _ _ _ _ _ resp); [done|done|by apply Z.eqb_neq].
    + edestruct IH as (dr & -> & Hdr).
      eexists. split; [by rewrite after_after|].
      apply run_cons; [by apply at_transport|exact Hdr].
Qed.

Lemma push_block_at_block w cfg tok t txn d :
  push_block_at w cfg tok t txn d -> push_block cfg tok txn d.
Proof.
  destruct 1; [apply block_no_request|apply block_transport| |apply block_pushed].
  by apply (block_status _ _ _ (StatusCode resp)).
Qed.

Lemma loop_run_blocks w cfg tok t txns d :
  loop_run w cfg tok t txns d -> loop_blocks cfg tok txns d.
Proof.
  induction 1 as [|t txn rest d dr Hb _ IH]; [constructor|].
  apply blocks_cons; [by eapply push_block_at_block|done].
Qed.

Lemma loop_run_requests w cfg tok t txns d :
  loop_run w cfg tok t txns d ->
  List.filter is_http d
  = map (fun txn => EvHttp (push_request cfg tok (InvoiceID txn)))
        (List.filter (url_parses w cfg) txns).
Proof.
  induction 1 as [|t txn rest d dr Hb _ IH]; [done|].
  rewrite List.filter_app, IH. simpl. unfold url_parses at 2.
  destruct Hb as [err Hurl|err Hurl _|resp Hurl _ _|resp Hurl _ _];
    by rewrite Hurl.
Qed.

(** What a nil return of the login tells: the answer it got and decoded, and
    that the token now held is the decoded one. *)
Lemma loginAndGetToken_nil_inv w s s' :
  loginAndGetToken w s = (None, s') ->
  exists resp body loginResp,
    http_Do w (trace s) (login_request w (config s)) = Ok resp /\
    Body resp = Ok body /\
    StatusCode resp = StatusOK /\
    json_Unmarshal w body zeroLoginResponse = (loginResp, None) /\
    jwtToken s' = Token loginResp.
Proof.
  rewrite loginAndGetToken_cases. cbv zeta.
  destruct (url_Parse w _); [done|].
  destruct (http_Do w _ _) as [resp|]; [|done].
  destruct (Body resp) as [body|] eqn:Hbody; [|done].
  destruct (StatusCode resp =? StatusOK)%Z eqn:Hst; [|done].
  destruct (json_Unmarshal w body _) as [lr [e|]] eqn:Hjson; [done|].
  intros [= <-]. exists resp, body, lr.
  apply Z.eqb_eq in Hst. by repeat split.
Qed.

(** ** Claims *)

(** C1: whatever the world answers to each push, once stages 1-3 have
    succeeded the loop of [main] runs one block per fetched record, in record
    order, and [main] returns exit status 0.  The block of a record is the
    one the world's answers at that point of the run decide: the push call,
    its request unless [http.NewRequest] refused the URL, and exactly one log
    line for the record, a success line on a 200 answer and a failure line
    otherwise.  No failure ends the loop: every record whose URL parses has
    its request sent, whatever happened to the records before it. *)
Theorem C1_dispatch_processes_every_record w s0 s1 s2 s3 txns :
  loadConfig w s0 = (None, s1) ->
  loginAndGetToken w s1 = (None, s2) ->
  getTransactionsFromDB w s2 = ((txns, None), s3) ->
  exists d,
    main w s0 = (0, after s3 d) /\
    loop_blocks (config s3) (jwtToken s3) txns d /\
    List.filter is_stdout d
      = map (fun txn => push_url_line (config s3) (InvoiceID txn)) txns /\
    Forall2 record_line txns (List.filter is_log d) /\
    loop_run w (config s3) (jwtToken s3) (trace s3) txns d /\
    List.filter is_http d
      = map (fun txn => EvHttp (push_request (config s3) (jwtToken s3)
                                  (InvoiceID txn)))
            (List.filter (url_parses w (config s3)) txns).
Proof.
  intros H1 H2 H3.
  destruct (main_loop_run w txns s3) as (d & Hrun & Hd).
  pose proof (loop_run_blocks _ _ _ _ _ _ Hd) as Hb.
  exists d. split; [|split; [done|split; [|split; [|split; [done|]]]]].
  - rewrite main_cases, H1, H2, H3. simpl. by rewrite Hrun.
  - by eapply loop_blocks_stdout.
  - by eapply loop_blocks_log.
  - by eapply loop_run_requests.
Qed.

(** C1 at work: four invoices, the first answered 500, the second refused by
    the transport, the third with a URL that does not parse, the last
    accepted. *)
Lemma C1_witness :
  exists d,
    main world_mixed_outcomes init_state
    = (0, after (fetched_state world_mixed_outcomes init_state) d) /\
    loop_blocks sample_config "abc123" (map mkTransaction mixed_invoices) d /\
    List.filter is_stdout d
      = map (fun txn => push_url_line sample_config (InvoiceID txn))
            (map mkTransaction mixed_invoices) /\
    Forall2 record_line (map mkTransaction mixed_invoices)
            (List.filter is_log d) /\
    loop_run world_mixed_outcomes sample_config "abc123"
      (trace (fetched_state world_mixed_outcomes init_state))
      (map mkTransaction mixed_invoices) d /\
    List.filter is_http d
      = map (fun txn => EvHttp (push_request sample_config "abc123"
                                  (InvoiceID txn)))
            (List.filter (url_parses world_mixed_outcomes sample_config)
               (map mkTransaction mixed_invoices)).
Proof.
  apply (C1_dispatch_processes_every_record world_mixed_outcomes init_state
           (snd (loadConfig world_mixed_outcomes init_state))
           (snd (loginAndGetToken world_mixed_outcomes
                   (snd (loadConfig world_mixed_outcomes init_state)))));
    vm_compute; reflexivity.
Defined.

(** C2: for a login exchange (the login URL parses and the transport returns
    a response), a 200 answer whose body is {"access_token":"abc123"},
    decoded by [json.Unmarshal] to Token abc123, makes [loginAndGetToken]
    return nil with the session token set to abc123; any non-200 status makes
    it return an error and leaves the session token as it was. *)
Theorem C2_login_sets_token_or_fails w s resp :
  url_Parse w (API.LoginURL (API (config s))) = None ->
  http_Do w (trace s) (login_request w (config s)) = Ok resp ->
  (StatusCode resp = StatusOK ->
   Body resp = Ok (token_body "abc123") ->
   json_Unmarshal w (token_body "abc123") zeroLoginResponse
   = (mkLoginResponse "abc123", None) ->
   fst (loginAndGetToken w s) = None /\
   jwtToken (snd (loginAndGetToken w s)) = "abc123") /\
  (StatusCode resp <> StatusOK ->
   (exists err, fst (loginAndGetToken w s) = Some err) /\
   jwtToken (snd (loginAndGetToken w s)) = jwtToken s).
Proof.
  intros Hurl Hdo.
  rewrite loginAndGetToken_cases. cbv zeta. rewrite Hurl, Hdo.
  split.
  - intros Hst Hbody Hjson. rewrite Hbody, Hst, Hjson. by simpl.
  - intros Hst. apply Z.eqb_neq in Hst. rewrite Hst.
    destruct (Body resp); simpl; eauto.
Qed.

(** C2 at work: a 200 answer carrying abc123, and a 401 answer, both from
    the initial empty token. *)
Lemma C2_witness :
  (fst (loginAndGetToken world_two_invoices (with_config sample_config init_state))
   = None /\
   jwtToken (snd (loginAndGetToken world_two_invoices
                    (with_config sample_config init_state))) = "abc123") /\
  ((exists err,
      fst (loginAndGetToken world_login_401 (with_config sample_config init_state))
      = Some err) /\
   jwtToken (snd (loginAndGetToken world_login_401
                    (with_config sample_config init_state))) = "").
Proof.
  split.
  - apply (C2_login_sets_token_or_fails world_two_invoices
             (with_config sample_config init_state)
             (mkResponse 200 (Ok (token_body "abc123"))));
      reflexivity.
  - apply (C2_login_sets_token_or_fails world_login_401
             (with_config sample_config init_state)
             (mkResponse 401 (Ok "Unauthorized")));
      [reflexivity | reflexivity | vm_compute; discriminate].
Defined.

(** C3 fails as worded: on the file with the bad port [loadConfig] returns
    the decoder's error, yet the settings already hold the decoded host. *)
Lemma C3_counterexample :
  fst (loadConfig world_bad_port init_state) = Some bad_port_error /\
  Database.Host (Database (config (snd (loadConfig world_bad_port init_state))))
  = "db1" /\
  ~ C3_as_stated.
Proof.
  split; [reflexivity|]. split; [reflexivity|].
  intros H.
  destruct (H world_bad_port init_state) as [_ Hbad].
  destruct Hbad as [_ Hcfg].
  - right. eexists _, _, _. split; reflexivity.
  - vm_compute in Hcfg. discriminate.
Qed.

(** C3 (amended): when [config.yaml] cannot be opened, [loadConfig] returns
    the open error and the settings are untouched.  Otherwise the decoder
    writes straight into the settings: [loadConfig] returns what the decoder
    returns, and the settings are what the decoder left, every field as
    decoded when it succeeds; the file is closed on both returns. *)
Theorem C3_loadConfig_decodes_in_place w s :
  (forall err,
     os_Open w "config.yaml" = Err err ->
     fst (loadConfig w s) = Some err /\
     config (snd (loadConfig w s)) = config s) /\
  (forall file cfg' derr,
     os_Open w "config.yaml" = Ok file ->
     yaml_Decode w file (config s) = (cfg', derr) ->
     fst (loadConfig w s) = derr /\
     config (snd (loadConfig w s)) = cfg' /\
     new_events s (snd (loadConfig w s)) = [EvOpen "config.yaml"; EvClose RFile] /\
     live (snd (loadConfig w s)) = live s).
Proof.
  rewrite loadConfig_cases. split.
  - intros err ->. done.
  - intros file cfg' derr -> Hdec. rewrite Hdec. simpl.
    split; [done|]. split; [done|]. split; [|done].
    apply (new_events_after (with_config cfg' s)).
Qed.


(** C4: when the query succeeds and every row scans, the fetcher returns one
    Transaction per row, in row order, whose InvoiceID is the row's number
    column, and a nil error. *)
Theorem C4_rows_to_transactions_in_order w s numbers :
  sql_Open w "postgres" (psqlInfo (config s)) = None ->
  db_Query w (psqlInfo (config s)) query = Ok (map Ok numbers) ->
  fst (getTransactionsFromDB w s) = (map mkTransaction numbers, None).
Proof.
  intros Hopen Hq.
  rewrite getTransactionsFromDB_cases. cbv zeta. rewrite Hopen, Hq. simpl.
  apply scan_rows_all_ok.
Qed.

(** C4 at work: rows INV-1, INV-2. *)
Lemma C4_witness :
  fst (getTransactionsFromDB world_two_invoices init_state)
  = ([mkTransaction "INV-1"; mkTransaction "INV-2"], None).
Proof.
  apply (C4_rows_to_transactions_in_order world_two_invoices init_state
           ["INV-1"; "INV-2"]); reflexivity.
Defined.

(** C5 fails as worded: with the connection refused there is no response and
    so no status; [pushTransaction] returns the transport's error unchanged,
    and its text is not the status message for any status. *)
Lemma C5_counterexample :
  http_Do world_push_refused [push_url_line sample_config "INV-1"]
    (push_request sample_config "" "INV-1")
  = Err (LibError refused_message) /\
  fst (pushTransaction world_push_refused "INV-1"
         (with_config sample_config init_state))
  = Some (LibError refused_message) /\
  (forall status, refused_message <> push_status_message "INV-1" status) /\
  ~ C5_as_stated.
Proof.
  assert (Hne : forall status,
            refused_message <> push_status_message "INV-1" status).
  { intros status H. unfold refused_message, push_status_message in H.
    simpl in H. discriminate. }
  split; [reflexivity|]. split; [reflexivity|]. split; [done|].
  intros H.
  destruct (H world_push_refused "INV-1" (with_config sample_config init_state))
    as (_ & _ & H3).
  destruct (H3 (LibError refused_message) eq_refl) as [status Hs].
  by apply (Hne status).
Qed.

(** C5 (amended): [pushTransaction] builds a POST request for
    <push_url>?invoice_number=<id> with the header Authorization: Bearer
    <token> and no body.  When the URL does not parse, no request is sent and
    the parse error is returned.  Otherwise exactly that request is sent; a
    transport error is returned as it is, a 200 response gives nil, and any
    other status gives an error whose message names the invoice and the
    status.  The call returns nil exactly when the URL parses and the
    response has status 200. *)
Theorem C5_push_request_and_verdict w invoiceID s :
  let url := API.PushURL (API (config s)) +:+ "?invoice_number=" +:+ invoiceID in
  let req := mkRequest "POST" url
               (<["Authorization" := "Bearer " +:+ jwtToken s]> ∅) None in
  let line := EvStdout ("URL push: " +:+ url +:+ nl) in
  let r := pushTransaction w invoiceID s in
  (forall err, url_Parse w url = Some err -> r = (Some err, after s [line])) /\
  (url_Parse w url = None ->
   In (EvHttp req) (new_events s (snd r)) /\
   (forall q, In (EvHttp q) (new_events s (snd r)) -> q = req) /\
   (forall err, http_Do w (trace s ++ [line]) req = Err err -> fst r = Some err) /\
   (forall resp,
      http_Do w (trace s ++ [line]) req = Ok resp ->
      (StatusCode resp = StatusOK -> fst r = None) /\
      (StatusCode resp <> StatusOK ->
       fst r = Some (Errorf ("failed to push transaction with invoice_id " +:+
                             invoiceID +:+ ", status: " +:+
                             pretty (StatusCode resp)))))) /\
  (fst r = None <->
   url_Parse w url = None /\
   exists resp,
     http_Do w (trace s ++ [line]) req = Ok resp /\ StatusCode resp = StatusOK).
Proof.
  cbv zeta. rewrite pushTransaction_cases. cbv zeta.
  unfold push_url_line, push_request, push_url, push_verdict.
  destruct (url_Parse w _) as [perr|].
  { split; [by intros ? [= ->]|]. split; [done|].
    simpl. split; [done|]. by intros [? _]. }
  split; [done|].
  destruct (http_Do w _ _) as [resp|terr]; simpl; rewrite ?new_events_after; simpl.
  - split.
    + intros _. split; [by right; left|].
      split; [intros q [[=]|[[= <-]|[[=]|[]]]]; done|].
      split; [done|]. intros ? [= <-]. split.
      * intros Hst. by rewrite Hst.
      * intros Hst. apply Z.eqb_neq in Hst. by rewrite Hst.
    + destruct (StatusCode resp =? StatusOK)%Z eqn:Hst; simpl.
      * apply Z.eqb_eq in Hst. split; [eauto|done].
      * apply Z.eqb_neq in Hst. split; [done|].
        intros (_ & resp' & [= <-] & ?). done.
  - split.
    + intros _. split; [by right; left|].
      split; [intros q [[=]|[[= <-]|[]]]; done|].
      split; [by intros ? [= ->]|done].
    + split; [done|]. by intros (_ & ? & [=] & _).
Qed.

(** C6: the trace of [main] splits into the events of stages 1-3, none of
    which is a push call, and the events of the dispatch loop.  Whenever the
    loop runs, the login has returned nil before it: it got a 200 answer,
    decoded its body, stored the decoded Token field as the session token
    and logged it.  The token is still that one when the loop starts and
    every request of the loop carries it.  The loop walks exactly the
    sequence the fetcher returned, in order, following the world's answers,
    and sends the request of every record whose URL parses. *)
Theorem C6_token_before_push_and_sequence_kept w s0 :
  exists d_stages d_loop : list Event,
    trace (snd (main w s0)) = trace s0 ++ d_stages ++ d_loop /\
    quiet d_stages /\
    ((fst (main w s0) = 1 /\ d_loop = []) \/
     exists s1 s2 s3 txns,
       loadConfig w s0 = (None, s1) /\
       loginAndGetToken w s1 = (None, s2) /\
       getTransactionsFromDB w s2 = ((txns, None), s3) /\
       trace s3 = trace s0 ++ d_stages /\
       In (EvLog ("Successfully acquired JWT token: " +:+ jwtToken s2)) d_stages /\
       jwtToken s3 = jwtToken s2 /\
       main w s0 = (0, after s3 d_loop) /\
       loop_blocks (config s3) (jwtToken s2) txns d_loop /\
       (forall req, In (EvHttp req) d_loop ->
          Header req !! "Authorization" = Some ("Bearer " +:+ jwtToken s2)) /\
       List.filter is_stdout d_loop
         = map (fun txn => push_url_line (config s3) (InvoiceID txn)) txns /\
       (exists resp body loginResp,
          http_Do w (trace s1) (login_request w (config s1)) = Ok resp /\
          Body resp = Ok body /\
          StatusCode resp = StatusOK /\
          json_Unmarshal w body zeroLoginResponse = (loginResp, None) /\
          jwtToken s2 = Token loginResp) /\
       loop_run w (config s3) (jwtToken s2) (trace s3) txns d_loop /\
       List.filter is_http d_loop
         = map (fun txn => EvHttp (push_request (config s3) (jwtToken s2)
                                     (InvoiceID txn)))
               (List.filter (url_parses w (config s3)) txns)).
Proof.
  rewrite main_cases.
  destruct (loadConfig_quiet w s0) as (d1 & Ht1 & Hq1).
  destruct (loadConfig w s0) as [e1 s1] eqn:H1. simpl in Ht1.
  destruct e1 as [err|].
  { eexists (d1 ++ [_]), []. simpl. rewrite Ht1, app_nil_r, app_assoc.
    split; [done|]. split; [|by left].
    apply Forall_app. split; [done|by repeat constructor]. }
  destruct (loginAndGetToken_quiet w s1) as (d2 & Ht2 & Hq2 & Hlog).
  destruct (loginAndGetToken w s1) as [e2 s2] eqn:H2. simpl in Ht2, Hlog.
  destruct e2 as [err|].
  { eexists (d1 ++ d2 ++ [_]), []. simpl.
    rewrite Ht2, Ht1, app_nil_r, <- !app_assoc.
    split; [done|]. split; [|by left].
    repeat (apply Forall_app; split); [done..|by repeat constructor]. }
  destruct (getTransactionsFromDB_quiet w s2) as (d3 & Hs3 & Hq3).
  destruct (getTransactionsFromDB w s2) as [[txns e3] s3] eqn:H3.
  simpl in Hs3. simpl.
  assert (Ht3 : trace s3 = trace s0 ++ d1 ++ d2 ++ d3).
  { rewrite Hs3. simpl. by rewrite Ht2, Ht1, <- !app_assoc. }
  destruct e3 as [err|].
  { eexists (d1 ++ d2 ++ d3 ++ [_]), []. simpl.
    rewrite Ht3, app_nil_r, <- !app_assoc.
    split; [done|]. split; [|by left].
    repeat (apply Forall_app; split); [done..|by repeat constructor]. }
  destruct (main_loop_run w txns s3) as (dl & Hrun & Hlr).
  pose proof (loop_run_blocks _ _ _ _ _ _ Hlr) as Hdl.
  pose proof (loginAndGetToken_nil_inv _ _ _ H2) as Hwritten.
  assert (Htok : jwtToken s3 = jwtToken s2) by (by rewrite Hs3).
  exists (d1 ++ d2 ++ d3), dl. rewrite Hrun. simpl.
  split; [by rewrite Ht3, <- !app_assoc|].
  split; [by repeat (apply Forall_app; split)|].
  right. exists s1, s2, s3, txns.
  rewrite Htok in Hlr, Hdl.
  do 3 (split; [done|]). split; [by rewrite Ht3|].
  split; [apply in_or_app; right; apply in_or_app; left; by apply Hlog|].
  do 3 (split; [done|]).
  split.
  { intros req Hin.
    destruct (loop_blocks_requests _ _ _ _ Hdl req Hin) as (txn & _ & ->).
    apply push_request_authorization. }
  split; [by eapply loop_blocks_stdout|].
  split; [done|]. split; [done|].
  by eapply loop_run_requests.
Qed.

(** C7: the fetcher leaves the set of held resources as it found it on every
    path.  A failed [sql.Open] returns at once with nothing acquired; once
    [sql.Open] has succeeded, the last event before the return is the close
    of the database handle, whether the query failed, a row failed to scan
    or all rows were read, and the row cursor of a successful query is
    closed before it. *)
Theorem C7_connection_released_on_every_path w s :
  live (snd (getTransactionsFromDB w s)) = live s /\
  (forall err,
     sql_Open w "postgres" (psqlInfo (config s)) = Some err ->
     getTransactionsFromDB w s
     = (([], Some err), after s [EvSqlOpen "postgres" (psqlInfo (config s))])) /\
  (sql_Open w "postgres" (psqlInfo (config s)) = None ->
   exists d : list Event,
     trace (snd (getTransactionsFromDB w s))
     = trace s ++ EvSqlOpen "postgres" (psqlInfo (config s)) :: d ++ [EvClose RDB] /\
     ~ In (EvClose RDB) d /\
     (forall err,
        db_Query w (psqlInfo (config s)) query = Err err ->
        fst (getTransactionsFromDB w s) = ([], Some err) /\
        d = [EvQuery query]) /\
     (forall rows,
        db_Query w (psqlInfo (config s)) query = Ok rows ->
        fst (getTransactionsFromDB w s) = scan_rows rows [] /\
        d = [EvQuery query; EvClose RRows])).
Proof.
  rewrite getTransactionsFromDB_cases. cbv zeta.
  destruct (sql_Open w _ _) as [err|]; simpl.
  { split; [done|]. split; [|done]. by intros ? [= ->]. }
  split; [by destruct (db_Query w _ _)|].
  split; [done|]. intros _.
  destruct (db_Query w _ _) as [rows|err]; simpl.
  - exists [EvQuery query; EvClose RRows].
    split; [done|]. split; [simpl; intuition discriminate|].
    split; [done|]. by intros ? [= ->].
  - exists [EvQuery query].
    split; [done|]. split; [simpl; intuition discriminate|].
    split; [|done]. by intros ? [= ->].
Qed.

(** C8: when the fetcher returns the empty sequence, [main] ends in the very
    state the fetcher left (no push call, no further log line) with exit
    status 0. *)
Theorem C8_empty_fetch w s0 s1 s2 s3 :
  loadConfig w s0 = (None, s1) ->
  loginAndGetToken w s1 = (None, s2) ->
  getTransactionsFromDB w s2 = (([], None), s3) ->
  main_loop w [] s3 = (tt, s3) /\ main w s0 = (0, s3).
Proof.
  intros H1 H2 H3. split; [done|].
  by rewrite main_cases, H1, H2, H3.
Qed.

(** C8 at work: the query gives no row. *)
Lemma C8_witness :
  main_loop world_no_invoices []
    (snd (getTransactionsFromDB world_no_invoices
       (snd (loginAndGetToken world_no_invoices
          (snd (loadConfig world_no_invoices init_state))))))
  = (tt, snd (getTransactionsFromDB world_no_invoices
       (snd (loginAndGetToken world_no_invoices
          (snd (loadConfig world_no_invoices init_state)))))) /\
  main world_no_invoices init_state
  = (0, snd (getTransactionsFromDB world_no_invoices
       (snd (loginAndGetToken world_no_invoices
          (snd (loadConfig world_no_invoices init_state)))))).
Proof.
  apply (C8_empty_fetch world_no_invoices init_state
           (snd (loadConfig world_no_invoices init_state))
           (snd (loginAndGetToken world_no_invoices
                   (snd (loadConfig world_no_invoices init_state)))));
    vm_compute; reflexivity.
Defined.

(** C9 fails as worded: [] is valid JSON without an access_token member, yet
    on a 200 answer with that body [json.Unmarshal] reports a type error, the
    login returns it, and [main] exits with status 1 before any push. *)
Lemma C9_counterexample :
  json_lacking_access_token "[]" /\
  fst (loginAndGetToken world_login_array (with_config sample_config init_state))
  = Some array_body_error /\
  fst (main world_login_array init_state) = 1 /\
  List.filter is_push_event (trace (snd (main world_login_array init_state))) = [] /\
  ~ C9_as_stated.
Proof.
  split; [constructor|]. split; [reflexivity|]. split; [reflexivity|].
  split; [vm_compute; reflexivity|].
  intros H.
  destruct (H world_login_array (with_config sample_config init_state)
              (mkResponse 200 (Ok "[]")) "[]") as [Hnil _];
    try reflexivity; [constructor|].
  vm_compute in Hnil. discriminate.
Qed.

(** C9 (amended): a 200 login answer whose body [json.Unmarshal] accepts
    while leaving the Token field empty (a JSON object without access_token,
    or with the empty string as its value) makes [loginAndGetToken] return
    nil with the session token set to the empty string; no check rejects it.
    From any later state holding that token, every push whose URL parses
    sends its request, and every request of the dispatch loop carries the
    Authorization value "Bearer " with nothing after it. *)
Theorem C9_empty_token_is_accepted w s resp body loginResp :
  url_Parse w (API.LoginURL (API (config s))) = None ->
  http_Do w (trace s) (login_request w (config s)) = Ok resp ->
  StatusCode resp = StatusOK ->
  Body resp = Ok body ->
  json_Unmarshal w body zeroLoginResponse = (loginResp, None) ->
  Token loginResp = "" ->
  fst (loginAndGetToken w s) = None /\
  jwtToken (snd (loginAndGetToken w s)) = "" /\
  (forall s' txns,
     jwtToken s' = jwtToken (snd (loginAndGetToken w s)) ->
     exists d : list Event,
       main_loop w txns s' = (tt, after s' d) /\
       (forall req, In (EvHttp req) d ->
          Header req !! "Authorization" = Some "Bearer ") /\
       loop_run w (config s') "" (trace s') txns d /\
       List.filter is_http d
       = map (fun txn => EvHttp (push_request (config s') "" (InvoiceID txn)))
             (List.filter (url_parses w (config s')) txns)) /\
  (forall s' invoiceID,
     jwtToken s' = jwtToken (snd (loginAndGetToken w s)) ->
     url_Parse w (push_url (config s') invoiceID) = None ->
     In (EvHttp (push_request (config s') "" invoiceID))
        (new_events s' (snd (pushTransaction w invoiceID s'))) /\
     Header (push_request (config s') "" invoiceID) !! "Authorization"
     = Some "Bearer ").
Proof.
  intros Hurl Hdo Hst Hbody Hjson Htok.
  assert (Hrun : loginAndGetToken w s
                 = (None, after (with_jwtToken "" s)
                            [EvHttp (login_request w (config s));
                             EvLog "Successfully acquired JWT token: ";
                             EvClose RBody])).
  { rewrite loginAndGetToken_cases. cbv zeta.
    rewrite Hurl, Hdo, Hbody, Hst, Hjson, Htok. reflexivity. }
  rewrite Hrun. simpl. split; [done|]. split; [done|]. split.
  - intros s' txns Hs'.
    destruct (main_loop_run w txns s') as (d & Hd & Hlr).
    rewrite Hs' in Hlr.
    exists d. split; [done|]. split.
    + intros req Hin.
      pose proof (loop_run_blocks _ _ _ _ _ _ Hlr) as Hblocks.
      destruct (loop_blocks_requests _ _ _ _ Hblocks req Hin) as (txn & _ & ->).
      by rewrite push_request_authorization.
    + split; [done|]. by eapply loop_run_requests.
  - intros s' invoiceID Hs' Hparse. split.
    + rewrite pushTransaction_cases. cbv zeta. rewrite Hparse, Hs'.
      destruct (http_Do w (trace s' ++ _) _); simpl; rewrite new_events_after;
        right; by left.
    + apply (push_request_authorization (config s') "" invoiceID).
Qed.

(** C9 at work: the login endpoint answers 200 with the body {}. *)
Lemma C9_witness :
  fst (loginAndGetToken world_login_empty_object
         (with_config sample_config init_state)) = None /\
  jwtToken (snd (loginAndGetToken world_login_empty_object
                   (with_config sample_config init_state))) = "" /\
  (forall s' txns,
     jwtToken s' = jwtToken (snd (loginAndGetToken world_login_empty_object
                                    (with_config sample_config init_state))) ->
     exists d : list Event,
       main_loop world_login_empty_object txns s' = (tt, after s' d) /\
       (forall req, In (EvHttp req) d ->
          Header req !! "Authorization" = Some "Bearer ") /\
       loop_run world_login_empty_object (config s') "" (trace s') txns d /\
       List.filter is_http d
       = map (fun txn => EvHttp (push_request (config s') "" (InvoiceID txn)))
             (List.filter (url_parses world_login_empty_object (config s')) txns)) /\
  (forall s' invoiceID,
     jwtToken s' = jwtToken (snd (loginAndGetToken world_login_empty_object
                                    (with_config sample_config init_state))) ->
     url_Parse world_login_empty_object (push_url (config s') invoiceID) = None ->
     In (EvHttp (push_request (config s') "" invoiceID))
        (new_events s' (snd (pushTransaction world_login_empty_object invoiceID s'))) /\
     Header (push_request (config s') "" invoiceID) !! "Authorization"
     = Some "Bearer ").
Proof.
  apply (C9_empty_token_is_accepted world_login_empty_object
           (with_config sample_config init_state)
           (mkResponse 200 (Ok "{}")) "{}" zeroLoginResponse);
    reflexivity.
Defined.

(** The run after the {} login: the one fetched invoice is pushed with the
    empty bearer token. *)
Example main_empty_token_push :
  List.filter is_http
    (new_events (fetched_state world_login_empty_object init_state)
       (snd (main world_login_empty_object init_state)))
  = [EvHttp (push_request sample_config "" "INV-1")] /\
  Header (push_request sample_config "" "INV-1") !! "Authorization"
  = Some "Bearer ".
Proof. split; [vm_compute; reflexivity|apply lookup_insert_eq]. Qed.

(** C10: the URL [pushTransaction] prints and hands to the request is the
    configured push endpoint, the literal ?invoice_number= and the
    identifier, joined as they are: the identifier is the exact tail of the
    URL, nothing in it is encoded, and two different identifiers never give
    the same URL.  The request that is sent carries that URL. *)
Theorem C10_push_url_is_raw_concatenation w invoiceID s :
  exists d : list Event,
    trace (snd (pushTransaction w invoiceID s))
    = trace s ++
      EvStdout ("URL push: " +:+
                (API.PushURL (API (config s)) +:+ "?invoice_number=" +:+ invoiceID)
                +:+ nl) :: d /\
    (forall req, In (EvHttp req) d ->
       URL req = API.PushURL (API (config s)) +:+ "?invoice_number=" +:+ invoiceID) /\
    (url_Parse w (API.PushURL (API (config s)) +:+ "?invoice_number=" +:+ invoiceID)
     = None ->
     exists req, In (EvHttp req) d) /\
    (forall other,
       other <> invoiceID ->
       push_url (config s) other <> push_url (config s) invoiceID).
Proof.
  rewrite pushTransaction_cases. cbv zeta.
  change (API.PushURL (API (config s)) +:+ "?invoice_number=" +:+ invoiceID)
    with (push_url (config s) invoiceID).
  assert (Hinj : forall other, other <> invoiceID ->
                   push_url (config s) other <> push_url (config s) invoiceID).
  { intros other Hne Heq. apply Hne. unfold push_url in Heq.
    by do 2 apply append_inj_r in Heq. }
  destruct (url_Parse w _) as [err|]; simpl.
  { exists []. split; [done|]. split; [by intros ? []|]. split; [done|done]. }
  destruct (http_Do w _ _) as [resp|err]; simpl.
  - eexists. split; [done|]. split; [|split; [eauto using in_eq|done]].
    intros req [[= <-]|[|[]]]; done.
  - eexists. split; [done|]. split; [|split; [eauto using in_eq|done]].
    intros req [[= <-]|[]]; done.
Qed.

Example push_url_keeps_metacharacters :
  push_url sample_config "A1&status=9#frag x"
  = "https://api.example.test/push?invoice_number=A1&status=9#frag x".
Proof. reflexivity. Qed.

(** ** Further properties of the record fetcher *)

Lemma scan_rows_first_error pre err post :
  forall transactions,
    scan_rows (map Ok pre ++ Err err :: post) transactions = ([], Some err).
Proof. induction pre as [|n pre IH]; intros acc; simpl; [done|apply IH]. Qed.

Lemma scan_rows_nil_error_inv rows :
  forall transactions result,
    scan_rows rows transactions = (result, None) ->
    exists numbers,
      rows = map Ok numbers /\ result = transactions ++ map mkTransaction numbers.
Proof.
  induction rows as [|[n|e] rows IH]; intros acc res H; simpl in H.
  - injection H as <-. exists []. by rewrite app_nil_r.
  - destruct (IH _ _ H) as (ns & -> & ->).
    exists (n :: ns). by rewrite <- app_assoc.
  - discriminate.
Qed.

Lemma scan_rows_error_inv rows :
  forall transactions result err,
    scan_rows rows transactions = (result, Some err) ->
    result = [] /\ In (Err err) rows.
Proof.
  induction rows as [|[n|e] rows IH]; intros acc res err H; simpl in H.
  - discriminate.
  - destruct (IH _ _ _ H) as [-> Hin]. split; [done|by right].
  - injection H as <- <-. split; [done|by left].
Qed.

(** When a row fails to scan, the fetcher returns that row's error (the first
    failing row's) with no record at all: the rows scanned before it are
    dropped and the rows after it are never read.  The cursor and the
    database handle are still closed, in that order. *)
Theorem fetch_scan_failure_drops_all_rows w s pre err post :
  sql_Open w "postgres" (psqlInfo (config s)) = None ->
  db_Query w (psqlInfo (config s)) query = Ok (map Ok pre ++ Err err :: post) ->
  getTransactionsFromDB w s
  = (([], Some err),
     after s [EvSqlOpen "postgres" (psqlInfo (config s)); EvQuery query;
              EvClose RRows; EvClose RDB]).
Proof.
  intros Hopen Hq. rewrite getTransactionsFromDB_cases. cbv zeta.
  by rewrite Hopen, Hq, scan_rows_first_error.
Qed.

(** The scan failure at work: three rows, the second NULL. *)
Lemma fetch_scan_failure_witness :
  getTransactionsFromDB world_null_row (with_config sample_config init_state)
  = (([], Some null_scan_error),
     after (with_config sample_config init_state)
       [EvSqlOpen "postgres" (psqlInfo sample_config); EvQuery query;
        EvClose RRows; EvClose RDB]).
Proof.
  apply (fetch_scan_failure_drops_all_rows world_null_row
           (with_config sample_config init_state)
           ["INV-1"] null_scan_error [Ok "INV-3"]); reflexivity.
Defined.

(** The fetcher returns a nil error exactly when [sql.Open] succeeds, the
    query succeeds and every row it delivers scans; whenever it returns an
    error the slice it returns is empty, and whenever it returns nil there
    are as many records as rows. *)
Theorem fetch_nil_error_iff_every_row_scans w s :
  (snd (fst (getTransactionsFromDB w s)) = None <->
   sql_Open w "postgres" (psqlInfo (config s)) = None /\
   exists numbers, db_Query w (psqlInfo (config s)) query = Ok (map Ok numbers)) /\
  (forall err,
     snd (fst (getTransactionsFromDB w s)) = Some err ->
     fst (fst (getTransactionsFromDB w s)) = []) /\
  (forall rows,
     snd (fst (getTransactionsFromDB w s)) = None ->
     db_Query w (psqlInfo (config s)) query = Ok rows ->
     length (fst (fst (getTransactionsFromDB w s))) = length rows).
Proof.
  rewrite getTransactionsFromDB_cases. cbv zeta.
  destruct (sql_Open w _ _) as [oerr|]; simpl.
  { split; [split; [done|by intros [? _]]|]. split; [done|done]. }
  destruct (db_Query w _ _) as [rows|qerr]; simpl.
  2:{ split; [split; [done|by intros [_ [? ?]]]|]. split; [done|done]. }
  destruct (scan_rows rows []) as [res [err|]] eqn:Hscan; simpl.
  - destruct (scan_rows_error_inv _ _ _ _ Hscan) as [-> Hin].
    split; [split; [done|]|split; [done|done]].
    intros [_ [numbers [= ->]]].
    by rewrite scan_rows_all_ok in Hscan.
  - destruct (scan_rows_nil_error_inv _ _ _ Hscan) as (numbers & -> & ->).
    split; [split; [eauto|done]|]. split; [done|].
    intros rows _ [= <-]. simpl. by rewrite !length_map.
Qed.

(** ** Further properties of the authenticator *)

(** Every error return of [loginAndGetToken] (URL refused, transport error,
    body read error, non-200 status, JSON decode error) leaves the session
    token as it was: the response is decoded into a local value, and the
    token is assigned only after the decoder has returned nil.  The settings
    and the held resources are never changed. *)
Theorem login_failure_keeps_token w s err :
  fst (loginAndGetToken w s) = Some err ->
  jwtToken (snd (loginAndGetToken w s)) = jwtToken s /\
  config (snd (loginAndGetToken w s)) = config s /\
  live (snd (loginAndGetToken w s)) = live s.
Proof.
  rewrite loginAndGetToken_cases. cbv zeta.
  destruct (url_Parse w _); [done|].
  destruct (http_Do w _ _) as [resp|]; [|done].
  destruct (Body resp) as [body|]; [|done].
  destruct (StatusCode resp =? StatusOK)%Z; [|done].
  by destruct (json_Unmarshal w body _) as [lr [e|]].
Qed.

(** The login at work on a 200 answer that is not JSON. *)
Lemma login_failure_keeps_token_witness :
  jwtToken (snd (loginAndGetToken world_login_html
                   (with_jwtToken "old" (with_config sample_config init_state))))
  = "old" /\
  config (snd (loginAndGetToken world_login_html
                 (with_jwtToken "old" (with_config sample_config init_state))))
  = sample_config /\
  live (snd (loginAndGetToken world_login_html
               (with_jwtToken "old" (with_config sample_config init_state))))
  = [].
Proof.
  apply (login_failure_keeps_token world_login_html
           (with_jwtToken "old" (with_config sample_config init_state))
           (LibError "invalid character looking for beginning of value")).
  reflexivity.
Defined.

(** [loginAndGetToken] returns nil exactly when the login URL parses, the
    transport returns a response, its body reads to the end, its status is
    200 and [json.Unmarshal] accepts the body. *)
Theorem login_nil_iff w s :
  fst (loginAndGetToken w s) = None <->
  url_Parse w (API.LoginURL (API (config s))) = None /\
  exists resp body loginResp,
    http_Do w (trace s) (login_request w (config s)) = Ok resp /\
    Body resp = Ok body /\
    StatusCode resp = StatusOK /\
    json_Unmarshal w body zeroLoginResponse = (loginResp, None).
Proof.
  rewrite loginAndGetToken_cases. cbv zeta.
  destruct (url_Parse w _); [split; [done|by intros [? _]]|].
  destruct (http_Do w _ _) as [resp|].
  2:{ split; [done|]. by intros (_ & ? & ? & ? & [=] & _). }
  destruct (Body resp) as [body|] eqn:Hbody.
  2:{ split; [done|]. intros (_ & ? & ? & ? & [= <-] & Hb & _). congruence. }
  destruct (StatusCode resp =? StatusOK)%Z eqn:Hst.
  2:{ split; [done|]. intros (_ & ? & ? & ? & [= <-] & _ & Hs & _).
      apply Z.eqb_neq in Hst. done. }
  apply Z.eqb_eq in Hst.
  destruct (json_Unmarshal w body _) as [lr [e|]] eqn:Hjson; simpl.
  - split; [done|]. intros (_ & ? & ? & ? & [= <-] & Hb & _ & Hj).
    rewrite Hbody in Hb. injection Hb as <-. congruence.
  - split; [|done]. intros _. split; [done|]. by exists resp, body, lr.
Qed.

(** On a successful login the session token becomes exactly the Token field
    the decoder produced, whatever token was held before, and that token is
    written to the log in clear; the response body is closed afterwards. *)
Theorem login_stores_and_logs_decoded_token w s resp body loginResp :
  url_Parse w (API.LoginURL (API (config s))) = None ->
  http_Do w (trace s) (login_request w (config s)) = Ok resp ->
  Body resp = Ok body ->
  StatusCode resp = StatusOK ->
  json_Unmarshal w body zeroLoginResponse = (loginResp, None) ->
  jwtToken (snd (loginAndGetToken w s)) = Token loginResp /\
  new_events s (snd (loginAndGetToken w s))
  = [EvHttp (login_request w (config s));
     EvLog ("Successfully acquired JWT token: " +:+ Token loginResp);
     EvClose RBody].
Proof.
  intros Hurl Hdo Hbody Hst Hjson.
  rewrite loginAndGetToken_cases. cbv zeta.
  rewrite Hurl, Hdo, Hbody, Hst, Hjson. simpl. split; [done|].
  apply (new_events_after (with_jwtToken (Token loginResp) s)).
Qed.

(** A re-login over a token already held. *)
Lemma login_stores_and_logs_witness :
  jwtToken (snd (loginAndGetToken world_two_invoices
                   (with_jwtToken "old" (with_config sample_config init_state))))
  = "abc123" /\
  new_events (with_jwtToken "old" (with_config sample_config init_state))
    (snd (loginAndGetToken world_two_invoices
            (with_jwtToken "old" (with_config sample_config init_state))))
  = [EvHttp (login_request world_two_invoices sample_config);
     EvLog "Successfully acquired JWT token: abc123";
     EvClose RBody].
Proof.
  apply (login_stores_and_logs_decoded_token world_two_invoices
           (with_jwtToken "old" (with_config sample_config init_state))
           (mkResponse 200 (Ok (token_body "abc123")))
           (token_body "abc123") (mkLoginResponse "abc123"));
    reflexivity.
Defined.

(** The body is read before the status is looked at: when reading the body
    fails, [loginAndGetToken] returns the read error whatever the status, so a
    401 whose body cannot be read is not reported as a status failure.  The
    body is closed all the same. *)
Theorem login_body_error_hides_status w s resp err :
  url_Parse w (API.LoginURL (API (config s))) = None ->
  http_Do w (trace s) (login_request w (config s)) = Ok resp ->
  Body resp = Err err ->
  loginAndGetToken w s
  = (Some err, after s [EvHttp (login_request w (config s)); EvClose RBody]).
Proof.
  intros Hurl Hdo Hbody. rewrite loginAndGetToken_cases. cbv zeta.
  by rewrite Hurl, Hdo, Hbody.
Qed.

(** A 401 whose body read is cut short. *)
Lemma login_body_error_witness :
  loginAndGetToken world_login_body_cut (with_config sample_config init_state)
  = (Some (LibError "unexpected EOF"),
     after (with_config sample_config init_state)
       [EvHttp (login_request world_login_body_cut sample_config); EvClose RBody]).
Proof.
  apply (login_body_error_hides_status world_login_body_cut
           (with_config sample_config init_state)
           (mkResponse 401 (Err (LibError "unexpected EOF"))));
    reflexivity.
Defined.

Lemma filter_none (f : Event -> bool) (l : list Event) :
  Forall (fun e => f e = false) l -> List.filter f l = [].
Proof. induction 1 as [|e l He _ IH]; simpl; [done|]. by rewrite He. Qed.

Lemma loginData_size cfg : size (loginData cfg) = 2%nat.
Proof.
  unfold loginData.
  rewrite map_size_insert_None.
  - by rewrite map_size_insert_None, map_size_empty.
  - by rewrite lookup_insert_ne, lookup_empty.
Qed.

(** Any request [loginAndGetToken] sends is a POST to the configured login
    URL with Content-Type application/json and no Authorization header, whose
    body is the JSON encoding of a map with exactly two keys: email, holding
    the configured username, and password, holding the configured password.
    It sends at most one. *)
Theorem login_request_shape w s :
  (length (List.filter is_http (new_events s (snd (loginAndGetToken w s)))) <= 1)%nat /\
  forall req,
    In (EvHttp req) (new_events s (snd (loginAndGetToken w s))) ->
    Method req = "POST" /\
    URL req = API.LoginURL (API (config s)) /\
    Header req !! "Content-Type" = Some "application/json" /\
    Header req !! "Authorization" = None /\
    exists m : gmap string string,
      ReqBody req = Some (json_Marshal w m) /\
      m !! "email" = Some (API.Username (API (config s))) /\
      m !! "password" = Some (API.Password (API (config s))) /\
      size m = 2%nat.
Proof.
  assert (Hshape : exists d,
            new_events s (snd (loginAndGetToken w s)) = d /\
            (d = [] \/
             exists tl, d = EvHttp (login_request w (config s)) :: tl /\
                        Forall (fun e => is_http e = false) tl)).
  { rewrite loginAndGetToken_cases. cbv zeta.
    destruct (url_Parse w _); simpl.
    { exists []. split; [|by left]. rewrite <- (after_nil s) at 2.
      apply new_events_after. }
    destruct (http_Do w _ _) as [resp|]; simpl.
    2:{ eexists. split; [apply new_events_after|]. right. eauto. }
    destruct (Body resp) as [body|]; simpl.
    2:{ eexists. split; [apply new_events_after|]. right.
        eexists. split; [done|]. by repeat constructor. }
    destruct (StatusCode resp =? StatusOK)%Z; simpl.
    2:{ eexists. split; [apply new_events_after|]. right.
        eexists. split; [done|]. by repeat constructor. }
    destruct (json_Unmarshal w body _) as [lr [e|]]; simpl.
    - eexists. split; [apply new_events_after|]. right.
      eexists. split; [done|]. by repeat constructor.
    - eexists. split; [apply (new_events_after (with_jwtToken (Token lr) s))|].
      right. eexists. split; [done|]. by repeat constructor. }
  destruct Hshape as (d & -> & [->|(tl & -> & Htl)]).
  { split; [simpl; lia|]. by intros ? []. }
  split.
  - simpl. rewrite (filter_none _ _ Htl). simpl. lia.
  - intros req [[= <-]|Hin].
    2:{ rewrite Forall_forall in Htl.
        apply list_elem_of_In, Htl in Hin. discriminate. }
    simpl. split; [done|]. split; [done|].
    split; [apply lookup_insert_eq|].
    split; [by rewrite lookup_insert_ne, lookup_empty|].
    exists (loginData (config s)). split; [done|].
    split; [unfold loginData; by rewrite lookup_insert_ne, lookup_insert_eq|].
    split; [apply lookup_insert_eq|apply loginData_size].
Qed.

(** ** Further properties of the push call and the dispatch loop *)

(** [pushTransaction] and the whole dispatch loop only read the settings and
    the token and hold no resource when they return, whatever the outcomes;
    when a push got a response, closing its body is the last thing the call
    does. *)
Theorem push_keeps_state_and_closes_body w s :
  (forall invoiceID,
     config (snd (pushTransaction w invoiceID s)) = config s /\
     jwtToken (snd (pushTransaction w invoiceID s)) = jwtToken s /\
     live (snd (pushTransaction w invoiceID s)) = live s /\
     forall resp,
       url_Parse w (push_url (config s) invoiceID) = None ->
       http_Do w (trace s ++ [push_url_line (config s) invoiceID])
         (push_request (config s) (jwtToken s) invoiceID) = Ok resp ->
       exists d : list Event,
         new_events s (snd (pushTransaction w invoiceID s)) = d ++ [EvClose RBody]) /\
  (forall txns,
     config (snd (main_loop w txns s)) = config s /\
     jwtToken (snd (main_loop w txns s)) = jwtToken s /\
     live (snd (main_loop w txns s)) = live s).
Proof.
  split.
  - intros invoiceID. rewrite pushTransaction_cases. cbv zeta.
    destruct (url_Parse w _); [done|].
    destruct (http_Do w _ _) as [resp|]; simpl; [|done].
    repeat split. intros ? _ _. rewrite new_events_after.
    by exists [push_url_line (config s) invoiceID;
               EvHttp (push_request (config s) (jwtToken s) invoiceID)].
  - intros txns. by destruct (main_loop_blocks w txns s) as (d & -> & _).
Qed.

Lemma main_loop_events w txns s :
  exists d : list Event,
    main_loop w txns s = (tt, after s d) /\
    List.filter is_http d
    = map (fun txn => EvHttp (push_request (config s) (jwtToken s) (InvoiceID txn)))
          (List.filter (url_parses w (config s)) txns).
Proof.
  revert s. induction txns as [|txn rest IH]; intros s.
  - exists []. split; [by rewrite after_nil|done].
  - rewrite main_loop_step, pushTransaction_cases. cbv zeta.
    simpl. unfold url_parses at 1.
    destruct (url_Parse w _) as [err|].
    + rewrite after_after. edestruct IH as (d & -> & Hd).
      eexists. split; [by rewrite after_after|].
      rewrite List.filter_app. simpl. exact Hd.
    + destruct (http_Do w _ _) as [resp|err]; rewrite after_after;
        edestruct IH as (d & -> & Hd);
        (eexists; split; [by rewrite after_after|]);
        rewrite List.filter_app; simpl; by rewrite Hd.
Qed.

(** The loop sends exactly one request per record whose push URL parses, in
    record order and with no de-duplication (a record fetched twice is pushed
    twice); a record whose URL does not parse gets no request.  Every request
    is built from the settings and the token held when the loop starts. *)
Theorem loop_one_request_per_parsable_record w txns s :
  List.filter is_http (new_events s (snd (main_loop w txns s)))
  = map (fun txn => EvHttp (push_request (config s) (jwtToken s) (InvoiceID txn)))
        (List.filter (url_parses w (config s)) txns).
Proof.
  destruct (main_loop_events w txns s) as (d & -> & Hd).
  simpl. by rewrite new_events_after.
Qed.

Example loop_repeated_and_unparsable_invoice :
  List.filter is_http
    (new_events (with_jwtToken "abc123" (with_config sample_config init_state))
       (snd (main_loop world_repeated_invoice
               [mkTransaction "INV-1"; mkTransaction "INV-1";
                mkTransaction ("INV" +:+ nl +:+ "9")]
               (with_jwtToken "abc123" (with_config sample_config init_state)))))
  = [EvHttp (push_request sample_config "abc123" "INV-1");
     EvHttp (push_request sample_config "abc123" "INV-1")].
Proof. vm_compute. reflexivity. Qed.

(** Dispatching a sequence is dispatching its first part and then, from the
    state that leaves, its second part: the loop carries nothing from one
    record to the next but the state. *)
Theorem main_loop_app w xs ys s :
  main_loop w (xs ++ ys) s = main_loop w ys (snd (main_loop w xs s)).
Proof.
  revert s. induction xs as [|txn rest IH]; intros s; [done|].
  rewrite <- app_comm_cons, !main_loop_step.
  destruct (pushTransaction w (InvoiceID txn) s) as [err s1]. apply IH.
Qed.

(** ** Further properties of [main] *)

Lemma loadConfig_events w s :
  exists d : list Event,
    trace (snd (loadConfig w s)) = trace s ++ d /\
    Forall (fun e => is_file e = true) d /\
    jwtToken (snd (loadConfig w s)) = jwtToken s /\
    live (snd (loadConfig w s)) = live s.
Proof.
  rewrite loadConfig_cases.
  destruct (os_Open w _) as [file|err]; simpl.
  - destruct (yaml_Decode w file _) as [cfg' derr]; simpl.
    eexists. split; [done|]. split; [each_event|done].
  - eexists. split; [done|]. split; [each_event|done].
Qed.

Lemma loginAndGetToken_events w s :
  exists d : list Event,
    trace (snd (loginAndGetToken w s)) = trace s ++ d /\
    Forall (fun e => e = EvHttp (login_request w (config s)) \/
                     e = EvClose RBody \/ is_log e = true) d /\
    config (snd (loginAndGetToken w s)) = config s /\
    live (snd (loginAndGetToken w s)) = live s.
Proof.
  rewrite loginAndGetToken_cases. cbv zeta.
  destruct (url_Parse w _) as [err|]; simpl.
  { exists []. rewrite app_nil_r. split; [done|]. split; [constructor|done]. }
  destruct (http_Do w _ _) as [resp|err]; simpl.
  2:{ eexists. split; [done|]. split; [each_event|done]. }
  destruct (Body resp) as [body|err]; simpl.
  2:{ eexists. split; [done|]. split; [each_event|done]. }
  destruct (StatusCode resp =? StatusOK)%Z; simpl.
  2:{ eexists. split; [done|]. split; [each_event|done]. }
  destruct (json_Unmarshal w body _) as [lr [err|]]; simpl;
    (eexists; split; [done|]; split; [each_event|done]).
Qed.

Lemma getTransactionsFromDB_events w s :
  exists d : list Event,
    snd (getTransactionsFromDB w s) = after s d /\
    Forall (fun e => e = EvSqlOpen "postgres" (psqlInfo (config s)) \/
                     e = EvQuery query \/ e = EvClose RRows \/ e = EvClose RDB) d.
Proof.
  rewrite getTransactionsFromDB_cases. cbv zeta.
  destruct (sql_Open w _ _) as [err|]; simpl.
  { eexists. split; [done|each_event]. }
  destruct (db_Query w _ _) as [rows|err]; simpl;
    (eexists; split; [done|each_event]).
Qed.

Lemma loop_blocks_kinds cfg tok txns d :
  loop_blocks cfg tok txns d ->
  Forall (fun e => is_sql e = false /\ is_file e = false /\
                   forall req, e = EvHttp req ->
                     exists txn, In txn txns /\
                                 req = push_request cfg tok (InvoiceID txn)) d.
Proof.
  intros H. apply Forall_forall. intros e He. apply list_elem_of_In in He.
  assert (Hk : is_sql e = false /\ is_file e = false).
  { clear -H He. induction H as [|txn rest d dr Hb _ IH]; [done|].
    apply in_app_or in He as [He|He]; [|auto].
    destruct Hb; unfold push_url_line in He; simpl in He;
      repeat (destruct He as [<-|He]; [done|]); done. }
  destruct Hk as [? ?]. repeat split; [done..|].
  intros req ->. by eapply loop_blocks_requests.
Qed.

(** The four ways [main] can end. *)
Lemma main_paths w s0 :
  (exists err s1,
     loadConfig w s0 = (Some err, s1) /\
     main w s0 = (1, after s1 [EvLog ("Failed to load config: " +:+ Error err)])) \/
  (exists s1 err s2,
     loadConfig w s0 = (None, s1) /\
     loginAndGetToken w s1 = (Some err, s2) /\
     main w s0
     = (1, after s2 [EvLog ("Failed to login and get JWT token: " +:+ Error err)])) \/
  (exists s1 s2 txns err s3,
     loadConfig w s0 = (None, s1) /\
     loginAndGetToken w s1 = (None, s2) /\
     getTransactionsFromDB w s2 = ((txns, Some err), s3) /\
     main w s0
     = (1, after s3 [EvLog ("Failed to get transactions from the database: "
                            +:+ Error err)])) \/
  (exists s1 s2 txns s3 d,
     loadConfig w s0 = (None, s1) /\
     loginAndGetToken w s1 = (None, s2) /\
     getTransactionsFromDB w s2 = ((txns, None), s3) /\
     main w s0 = (0, after s3 d) /\
     loop_blocks (config s3) (jwtToken s3) txns d).
Proof.
  rewrite main_cases.
  destruct (loadConfig w s0) as [[err|] s1].
  { left. eexists _, _. split; reflexivity. }
  right. destruct (loginAndGetToken w s1) as [[err|] s2] eqn:H2.
  { left. eexists _, _, _. split; [reflexivity|]. split; [exact H2|reflexivity]. }
  right. destruct (getTransactionsFromDB w s2) as [[txns [err|]] s3] eqn:H3; simpl.
  { left. eexists _, _, _, _, _. split; [reflexivity|].
    split; [exact H2|]. split; [exact H3|reflexivity]. }
  right. destruct (main_loop_blocks w txns s3) as (d & Hrun & Hd).
  exists s1, s2, txns, s3, d. by rewrite Hrun.
Qed.

Lemma new_events_trace s s' d : trace s' = trace s ++ d -> new_events s s' = d.
Proof. intros H. unfold new_events. rewrite H. apply drop_app_length. Qed.

(** [main] exits with status 0 or 1, and with 0 exactly when the
    configuration load, the login and the fetch all returned nil: no push
    outcome ever turns the status to 1, and no stage failure is survived. *)
Theorem main_exit_status w s0 :
  (fst (main w s0) = 0 \/ fst (main w s0) = 1) /\
  (fst (main w s0) = 0 <->
   fst (loadConfig w s0) = None /\
   fst (loginAndGetToken w (snd (loadConfig w s0))) = None /\
   snd (fst (getTransactionsFromDB w
               (snd (loginAndGetToken w (snd (loadConfig w s0)))))) = None).
Proof.
  destruct (main_paths w s0) as
    [(err & s1 & H1 & Hm)|[(s1 & err & s2 & H1 & H2 & Hm)
    |[(s1 & s2 & txns & err & s3 & H1 & H2 & H3 & Hm)
    |(s1 & s2 & txns & s3 & d & H1 & H2 & H3 & Hm & _)]]];
    rewrite Hm, H1; simpl; rewrite ?H2; simpl; rewrite ?H3; simpl;
    (split; [auto|]); split; try done; intros; intuition discriminate.
Qed.


(** The events of a run of [main], stage by stage: [d1] from the
    configuration load, [d2] from the login, [d3] from the fetch, [d4] the
    fatal line or the dispatch loop. *)
Lemma main_run w s0 :
  let s1 := snd (loadConfig w s0) in
  let s2 := snd (loginAndGetToken w s1) in
  let s3 := snd (getTransactionsFromDB w s2) in
  exists d1 d2 d3 d4 : list Event,
    new_events s0 (snd (main w s0)) = d1 ++ d2 ++ d3 ++ d4 /\
    Forall (fun e => is_file e = true) d1 /\
    Forall (fun e => e = EvHttp (login_request w (config s1)) \/
                     e = EvClose RBody \/ is_log e = true) d2 /\
    Forall (fun e => e = EvSqlOpen "postgres" (psqlInfo (config s1)) \/
                     e = EvQuery query \/ e = EvClose RRows \/ e = EvClose RDB) d3 /\
    ((fst (main w s0) = 1 /\ (exists e, d4 = [e] /\ fatal_line e) /\
      ((fst (loadConfig w s0) <> None /\ d2 = [] /\ d3 = []) \/
       (fst (loadConfig w s0) = None /\
        fst (loginAndGetToken w s1) <> None /\ d3 = []) \/
       (fst (loadConfig w s0) = None /\
        fst (loginAndGetToken w s1) = None /\
        snd (fst (getTransactionsFromDB w s2)) <> None))) \/
     (fst (main w s0) = 0 /\
      fst (loadConfig w s0) = None /\
      fst (loginAndGetToken w s1) = None /\
      snd (fst (getTransactionsFromDB w s2)) = None /\
      loop_blocks (config s1) (jwtToken s2)
        (fst (fst (getTransactionsFromDB w s2))) d4)).
Proof.
  cbv zeta.
  destruct (loadConfig_events w s0) as (d1 & Ht1 & Hf1 & Htok1 & Hl1).
  destruct (loginAndGetToken_events w (snd (loadConfig w s0)))
    as (d2 & Ht2 & Hf2 & Hc2 & Hl2).
  destruct (getTransactionsFromDB_events w
              (snd (loginAndGetToken w (snd (loadConfig w s0)))))
    as (d3 & Hs3 & Hf3).
  rewrite Hc2 in Hf3.
  assert (Hfatal : forall e, fatal_line e -> exists e', [e] = [e'] /\ fatal_line e')
    by eauto.
  destruct (main_paths w s0) as
    [(err & s1 & H1 & Hm)|[(s1 & err & s2 & H1 & H2 & Hm)
    |[(s1 & s2 & txns & err & s3 & H1 & H2 & H3 & Hm)
    |(s1 & s2 & txns & s3 & d & H1 & H2 & H3 & Hm & Hd)]]];
    rewrite Hm; rewrite H1 in *; simpl in *; rewrite ?H2 in *; simpl in *;
    rewrite ?H3 in *; simpl in *.
  - exists d1, [], [], [EvLog ("Failed to load config: " +:+ Error err)].
    split; [apply new_events_trace; simpl; by rewrite Ht1, <- app_assoc|].
    split; [done|]. split; [constructor|]. split; [constructor|].
    left. split; [done|]. split; [|by left].
    apply Hfatal. exists err. by left.
  - exists d1, d2, [], [EvLog ("Failed to login and get JWT token: " +:+ Error err)].
    split; [apply new_events_trace; simpl; by rewrite Ht2, Ht1, <- !app_assoc|].
    split; [done|]. split; [done|]. split; [constructor|].
    left. split; [done|]. split; [|right; by left].
    apply Hfatal. exists err. right. by left.
  - exists d1, d2, d3,
      [EvLog ("Failed to get transactions from the database: " +:+ Error err)].
    split; [apply new_events_trace; rewrite Hs3; simpl;
            by rewrite Ht2, Ht1, <- !app_assoc|].
    split; [done|]. split; [done|]. split; [done|].
    left. split; [done|]. split; [|right; by right].
    apply Hfatal. exists err. right. by right.
  - exists d1, d2, d3, d.
    split; [apply new_events_trace; rewrite Hs3; simpl;
            by rewrite Ht2, Ht1, <- !app_assoc|].
    split; [done|]. split; [done|]. split; [done|].
    right. repeat split; try done.
    rewrite Hs3 in Hd. simpl in Hd. by rewrite Hc2 in Hd.
Qed.

Lemma is_file_quiet e : is_file e = true -> is_push_event e = false.
Proof. by destruct e. Qed.

(** When [main] returns, every file, response body, row cursor and database
    handle opened during the run has been closed, on the fatal exits as on
    the normal one: the held resources are those held at the start. *)
Theorem main_releases_everything w s0 :
  live (snd (main w s0)) = live s0.
Proof.
  destruct (loadConfig_events w s0) as (d1 & _ & _ & Htok1 & Hl1).
  destruct (loginAndGetToken_events w (snd (loadConfig w s0)))
    as (d2 & _ & _ & Hc2 & Hl2).
  destruct (getTransactionsFromDB_events w
              (snd (loginAndGetToken w (snd (loadConfig w s0)))))
    as (d3 & Hs3 & _).
  destruct (main_paths w s0) as
    [(err & s1 & H1 & Hm)|[(s1 & err & s2 & H1 & H2 & Hm)
    |[(s1 & s2 & txns & err & s3 & H1 & H2 & H3 & Hm)
    |(s1 & s2 & txns & s3 & d & H1 & H2 & H3 & Hm & Hd)]]];
    rewrite Hm; rewrite H1 in *; simpl in *; rewrite ?H2 in *; simpl in *;
    rewrite ?H3 in *; simpl in *; subst; simpl; by rewrite ?Hl2, ?Hc2.
Qed.

(** The settings are written by the configuration load only and the token by
    the login only: at the end of [main] the settings are those the load
    left, and the token is the one the login left (or, when the load failed
    and the login never ran, the one held at the start). *)
Theorem main_settings_and_token_written_once w s0 :
  config (snd (main w s0)) = config (snd (loadConfig w s0)) /\
  jwtToken (snd (main w s0))
  = match fst (loadConfig w s0) with
    | Some _ => jwtToken s0
    | None => jwtToken (snd (loginAndGetToken w (snd (loadConfig w s0))))
    end.
Proof.
  destruct (loadConfig_events w s0) as (d1 & _ & _ & Htok1 & Hl1).
  destruct (loginAndGetToken_events w (snd (loadConfig w s0)))
    as (d2 & _ & _ & Hc2 & Hl2).
  destruct (getTransactionsFromDB_events w
              (snd (loginAndGetToken w (snd (loadConfig w s0)))))
    as (d3 & Hs3 & _).
  destruct (main_paths w s0) as
    [(err & s1 & H1 & Hm)|[(s1 & err & s2 & H1 & H2 & Hm)
    |[(s1 & s2 & txns & err & s3 & H1 & H2 & H3 & Hm)
    |(s1 & s2 & txns & s3 & d & H1 & H2 & H3 & Hm & Hd)]]];
    rewrite Hm; rewrite H1 in *; simpl in *; rewrite ?H2 in *; simpl in *;
    rewrite ?H3 in *; simpl in *; subst; simpl; by rewrite ?Hl2, ?Hc2.
Qed.

(** [main] touches the database only after the configuration load and the
    login have both returned nil, with the driver postgres and a connection
    string built from the settings the load left. *)
Theorem main_database_only_after_login w s0 driver dsn :
  In (EvSqlOpen driver dsn) (new_events s0 (snd (main w s0))) ->
  fst (loadConfig w s0) = None /\
  fst (loginAndGetToken w (snd (loadConfig w s0))) = None /\
  driver = "postgres" /\
  dsn = psqlInfo (config (snd (loadConfig w s0))).
Proof.
  intros Hin.
  destruct (main_run w s0) as (d1 & d2 & d3 & d4 & Hev & Hf1 & Hf2 & Hf3 & Hend).
  rewrite Hev in Hin. rewrite Forall_forall in Hf1, Hf2, Hf3.
  apply in_app_or in Hin as [Hin|Hin].
  { apply list_elem_of_In, Hf1 in Hin. discriminate. }
  apply in_app_or in Hin as [Hin|Hin].
  { apply list_elem_of_In, Hf2 in Hin. by destruct Hin as [?|[?|?]]. }
  apply in_app_or in Hin as [Hin|Hin].
  - pose proof Hin as Hin'. apply list_elem_of_In, Hf3 in Hin'.
    destruct Hin' as [[= -> ->]|[?|[?|?]]]; try done.
    destruct Hend as [(_ & _ & [(_ & _ & ->)|[(_ & _ & ->)|(? & ? & _)]])
                     |(_ & ? & ? & _)]; done.
  - destruct Hend as [(_ & (e & -> & err & Hline) & _)|(_ & _ & _ & _ & Hd)].
    + destruct Hin as [He|[]]. subst e. by destruct Hline as [?|[?|?]].
    + apply loop_blocks_kinds in Hd. rewrite Forall_forall in Hd.
      apply list_elem_of_In, Hd in Hin. by destruct Hin.
Qed.

(** The database is opened in the two-invoice run. *)
Lemma main_database_witness :
  fst (loadConfig world_two_invoices init_state) = None /\
  fst (loginAndGetToken world_two_invoices
         (snd (loadConfig world_two_invoices init_state))) = None /\
  "postgres" = "postgres" /\
  psqlInfo sample_config
  = psqlInfo (config (snd (loadConfig world_two_invoices init_state))).
Proof.
  apply (main_database_only_after_login world_two_invoices init_state
           "postgres" (psqlInfo sample_config)).
  vm_compute. repeat (first [left; reflexivity | right]).
Defined.

(** Every HTTP request [main] sends comes after a successful configuration
    load and is built from the settings it left: it is either the login
    request, or, in a run that ends with status 0, the push request of a
    fetched record carrying the token the login left. *)
Theorem main_requests_use_loaded_settings w s0 req :
  In (EvHttp req) (new_events s0 (snd (main w s0))) ->
  let s1 := snd (loadConfig w s0) in
  let s2 := snd (loginAndGetToken w s1) in
  fst (loadConfig w s0) = None /\
  (req = login_request w (config s1) \/
   (fst (main w s0) = 0 /\
    exists txn,
      In txn (fst (fst (getTransactionsFromDB w s2))) /\
      req = push_request (config s1) (jwtToken s2) (InvoiceID txn))).
Proof.
  intros Hin. cbv zeta.
  destruct (main_run w s0) as (d1 & d2 & d3 & d4 & Hev & Hf1 & Hf2 & Hf3 & Hend).
  rewrite Hev in Hin. rewrite Forall_forall in Hf1, Hf2, Hf3.
  apply in_app_or in Hin as [Hin|Hin].
  { apply list_elem_of_In, Hf1 in Hin. discriminate. }
  apply in_app_or in Hin as [Hin|Hin].
  - pose proof Hin as Hin'. apply list_elem_of_In, Hf2 in Hin'.
    destruct Hin' as [[= ->]|[?|?]]; try done.
    split; [|by left].
    destruct Hend as [(_ & _ & [(_ & -> & _)|[(? & _)|(? & _)]])|(_ & ? & _)];
      done.
  - apply in_app_or in Hin as [Hin|Hin].
    { apply list_elem_of_In, Hf3 in Hin. by destruct Hin as [?|[?|[?|?]]]. }
    destruct Hend as [(_ & (e & -> & err & Hline) & _)|(H0 & H1 & _ & _ & Hd)].
    + destruct Hin as [He|[]]. subst e. by destruct Hline as [?|[?|?]].
    + split; [done|]. right. split; [done|].
      by eapply loop_blocks_requests.
Qed.

(** The first push request of the two-invoice run. *)
Lemma main_requests_witness :
  fst (loadConfig world_two_invoices init_state) = None /\
  (push_request sample_config "abc123" "INV-1"
   = login_request world_two_invoices
       (config (snd (loadConfig world_two_invoices init_state))) \/
   (fst (main world_two_invoices init_state) = 0 /\
    exists txn,
      In txn (fst (fst (getTransactionsFromDB world_two_invoices
                          (snd (loginAndGetToken world_two_invoices
                                  (snd (loadConfig world_two_invoices init_state))))))) /\
      push_request sample_config "abc123" "INV-1"
      = push_request (config (snd (loadConfig world_two_invoices init_state)))
          (jwtToken (snd (loginAndGetToken world_two_invoices
                            (snd (loadConfig world_two_invoices init_state)))))
          (InvoiceID txn))).
Proof.
  apply (main_requests_use_loaded_settings world_two_invoices init_state
           (push_request sample_config "abc123" "INV-1")).
  vm_compute. repeat (first [left; reflexivity | right]).
Defined.

(** On every fatal exit the last event is the fatal log line of the stage
    that failed, carrying that stage's own error: the load's error after
    Failed to load config, else the login's after Failed to login and get JWT
    token, else the fetch's after Failed to get transactions from the
    database.  No push call was made before it. *)
Theorem main_fatal_exit_without_push w s0 :
  fst (main w s0) = 1 ->
  let s1 := snd (loadConfig w s0) in
  let s2 := snd (loginAndGetToken w s1) in
  exists (d : list Event) (e : Event),
    new_events s0 (snd (main w s0)) = d ++ [e] /\
    fatal_line e /\
    Forall (fun e => is_push_event e = false) d /\
    ((exists err,
        fst (loadConfig w s0) = Some err /\
        e = EvLog ("Failed to load config: " +:+ Error err)) \/
     (fst (loadConfig w s0) = None /\
      exists err,
        fst (loginAndGetToken w s1) = Some err /\
        e = EvLog ("Failed to login and get JWT token: " +:+ Error err)) \/
     (fst (loadConfig w s0) = None /\
      fst (loginAndGetToken w s1) = None /\
      exists err,
        snd (fst (getTransactionsFromDB w s2)) = Some err /\
        e = EvLog ("Failed to get transactions from the database: "
                   +:+ Error err))).
Proof.
  intros Hexit. cbv zeta.
  destruct (loadConfig_quiet w s0) as (d1 & Ht1 & Hq1).
  destruct (loginAndGetToken_quiet w (snd (loadConfig w s0)))
    as (d2 & Ht2 & Hq2 & _).
  destruct (getTransactionsFromDB_quiet w
              (snd (loginAndGetToken w (snd (loadConfig w s0)))))
    as (d3 & Hs3 & Hq3).
  destruct (main_paths w s0) as
    [(err & s1 & H1 & Hm)|[(s1 & err & s2 & H1 & H2 & Hm)
    |[(s1 & s2 & txns & err & s3 & H1 & H2 & H3 & Hm)
    |(s1 & s2 & txns & s3 & d & H1 & H2 & H3 & Hm & _)]]];
    rewrite Hm in *; rewrite H1 in *; simpl in *; rewrite ?H2 in *; simpl in *;
    rewrite ?H3 in *; simpl in *; [| | |discriminate].
  - exists d1, (EvLog ("Failed to load config: " +:+ Error err)).
    split; [apply new_events_trace; simpl; by rewrite Ht1, <- app_assoc|].
    split; [exists err; by left|]. split; [done|].
    left. by exists err.
  - exists (d1 ++ d2),
      (EvLog ("Failed to login and get JWT token: " +:+ Error err)).
    split; [apply new_events_trace; simpl; by rewrite Ht2, Ht1, <- !app_assoc|].
    split; [exists err; right; by left|].
    split; [by apply Forall_app|].
    right. left. split; [done|]. by exists err.
  - exists (d1 ++ d2 ++ d3),
      (EvLog ("Failed to get transactions from the database: " +:+ Error err)).
    split; [apply new_events_trace; rewrite Hs3; simpl;
            by rewrite Ht2, Ht1, <- !app_assoc|].
    split; [exists err; right; by right|].
    split; [by repeat (apply Forall_app; split)|].
    right. right. split; [done|]. split; [done|]. by exists err.
Qed.

(** The query fails: the login has happened, the fatal line carries the
    driver's error, no push follows. *)
Lemma main_fatal_exit_witness :
  exists (d : list Event) (e : Event),
    new_events init_state (snd (main world_query_fails init_state)) = d ++ [e] /\
    fatal_line e /\
    Forall (fun e => is_push_event e = false) d /\
    ((exists err,
        fst (loadConfig world_query_fails init_state) = Some err /\
        e = EvLog ("Failed to load config: " +:+ Error err)) \/
     (fst (loadConfig world_query_fails init_state) = None /\
      exists err,
        fst (loginAndGetToken world_query_fails
               (snd (loadConfig world_query_fails init_state))) = Some err /\
        e = EvLog ("Failed to login and get JWT token: " +:+ Error err)) \/
     (fst (loadConfig world_query_fails init_state) = None /\
      fst (loginAndGetToken world_query_fails
             (snd (loadConfig world_query_fails init_state))) = None /\
      exists err,
        snd (fst (getTransactionsFromDB world_query_fails
                    (snd (loginAndGetToken world_query_fails
                            (snd (loadConfig world_query_fails init_state))))))
        = Some err /\
        e = EvLog ("Failed to get transactions from the database: "
                   +:+ Error err))).
Proof.
  apply (main_fatal_exit_without_push world_query_fails init_state).
  reflexivity.
Defined.

Example main_query_fails_last_line :
  last (trace (snd (main world_query_fails init_state)))
  = Some (EvLog ("Failed to get transactions from the database: " +:+
                 "pq: relation invoice does not exist")).
Proof. vm_compute. reflexivity. Qed.
